(** * generate_icons.py: a shallow embedding and its properties

    The script [apps/buzz/generate_icons.py] creates the directory [public]
    when the path is absent and then, for each size of [sizes], paints a
    square canvas, resolves a font (arial at [int(size * 0.4)] points, any
    failure replaced by the built-in font), measures the glyph ["B"],
    draws it at the floor-centred origin, saves the canvas as a PNG and
    prints a progress line.

    The script is a sequence of calls into the Python runtime, [os] and
    Pillow.  The model threads a [World] (file system, standard output and
    the log of library calls) through a state-and-exception monad.  What
    the host decides (which fonts load, what a glyph measures, how an
    image is encoded, which writes the operating system refuses) is a
    record [Env] that every definition takes as a parameter.

    What the model takes from the libraries:
    - Python integers are [Z]; [//] is [Z.div]; floats are binary64
      ([SpecFloat]); [str] of an integer is its decimal numeral.
    - A file system entry is a regular file or a directory.
    - [Image.new], [load_default], [textbbox] and [draw.text] return
      normally; [truetype], [makedirs] and [save] may raise.
    - [textbbox] at a point is the box at the nominal origin moved to
      that point.
    - Measuring and encoding are functions of their arguments. *)

From Stdlib Require Import ZArith List Lia Ascii String Floats.SpecFloat.

From stdpp Require Import gmap strings pretty.

Open Scope Z_scope.

(** ** Python runtime: exceptions, floats, integer formatting *)

Module Py.

(** The exception classes that the modelled calls can raise. *)
Inductive exn : Type :=
| FileExistsError
| FileNotFoundError
| NotADirectoryError
| IsADirectoryError
| PermissionError
| OSError (msg : string)
| OverflowError
| ValueError
| MemoryError
| KeyboardInterrupt.

(** Outcome of an expression that may raise. *)
Inductive Result (A : Type) : Type :=
| Ok (a : A)
| Raised (e : exn).

Arguments Ok {A} a.
Arguments Raised {A} e.

(** Python floats are IEEE 754 binary64 numbers. *)
Definition prec : Z := 53.
Definition emax : Z := 1024.

(** The literal [0.4] denotes the double nearest to 4/10, which is
    [7205759403792794 * 2^-54] (bit pattern 0x3FD999999999999A). *)
Definition float_0_4 : spec_float := S754_finite false 7205759403792794 (-54).

(** [float(n)] as performed by [int * float]: correctly rounded, and
    [OverflowError] when [n] is beyond the range of a double. *)
Definition float_of_int (n : Z) : Result spec_float :=
  match binary_normalize prec emax n 0 false with
  | S754_infinity _ => Raised OverflowError
  | f => Ok f
  end.

Definition float_mul (x y : spec_float) : spec_float := SFmul prec emax x y.

(** [int(x)] on a float: truncation towards zero; infinities and NaN raise. *)
Definition int_of_float (x : spec_float) : Result Z :=
  match x with
  | S754_zero _ => Ok 0
  | S754_finite s m e =>
      let a := if 0 <=? e then Z.shiftl (Zpos m) e else Z.shiftr (Zpos m) (- e) in
      Ok (if s then - a else a)
  | S754_infinity _ => Raised OverflowError
  | S754_nan => Raised ValueError
  end.

(** [int(n * x)] for an integer [n] and a float [x]. *)
Definition int_mul_float (n : Z) (x : spec_float) : Result Z :=
  match float_of_int n with
  | Ok f => int_of_float (float_mul f x)
  | Raised e => Raised e
  end.

(** [a // b] on integers is floor division, which is [Z.div]. *)
Definition floordiv (a b : Z) : Z := a `div` b.

(** [str(n)] inside an f-string: the decimal numeral. *)
Definition str (n : Z) : string := pretty n.

End Py.

Export Py.

(** ** Pillow values *)

Inductive Font : Type :=
| FreeTypeFont (file : string) (size : Z)
| DefaultFont.

(** A bounding box [(left, top, right, bottom)]; the script reads the
    components as [bbox[0]] to [bbox[3]]. *)
Record BBox : Type := mkBBox {
  bb_left : Z;
  bb_top : Z;
  bb_right : Z;
  bb_bottom : Z
}.

(** A text drawing operation recorded on a canvas. *)
Record TextOp : Type := mkTextOp {
  to_origin : Z * Z;
  to_text : string;
  to_fill : string;
  to_font : Font
}.

(** A canvas: mode, size, the colour it was filled with and the text
    drawn on it so far, oldest first. *)
Record Image : Type := mkImage {
  im_mode : string;
  im_size : Z * Z;
  im_color : string;
  im_texts : list TextOp
}.

(** ** The world *)

Inductive node : Type :=
| Dir
| File (data : list Byte.byte).

(** Library calls in the order the script makes them. *)
Inductive call : Type :=
| CExists (path : string)
| CMakedirs (path : string)
| CImageNew (mode : string) (size : Z * Z) (color : string)
| CTruetype (file : string) (size : Z)
| CLoadDefault
| CTextbbox (xy : Z * Z) (text : string) (font : Font)
| CText (xy : Z * Z) (text : string) (fill : string) (font : Font)
| CSave (path : string) (img : Image)
| CPrint (line : string).

(** The file system maps a path, relative to the working directory, to
    the entry found there.  Entries are regular files and directories. *)
Record World : Type := mkWorld {
  fs : gmap string node;
  stdout : list string;
  calls : list call
}.

(** What the host decides. *)
Record Env : Type := mkEnv {
  (** [Some e]: [ImageFont.truetype file size] raises [e]. *)
  truetype_fails : string -> Z -> option exn;
  (** The box [textbbox] reports for a text drawn at the nominal origin. *)
  font_bbox : Font -> string -> BBox;
  (** The PNG encoding of a canvas. *)
  png_encode : Image -> list Byte.byte;
  (** The operating system refuses to create or open the path for writing. *)
  denied : string -> bool;
  (** [Some junk]: writing to the path fails part-way (disk full), after
      [junk] reached the file. *)
  write_fault : string -> option (list Byte.byte)
}.

(** ** The state-and-exception monad *)

Definition M (A : Type) : Type := World -> Result A * World.

Definition ret {A} (a : A) : M A := fun w => (Ok a, w).

Definition raise {A} (e : exn) : M A := fun w => (Raised e, w).

Definition bind {A B} (m : M A) (k : A -> M B) : M B :=
  fun w =>
    match m w with
    | (Ok a, w') => k a w'
    | (Raised e, w') => (Raised e, w')
    end.

Notation "x <- m ;; k" := (bind m (fun x => k))
  (at level 100, m at next level, right associativity).

Notation "m ;;; k" := (bind m (fun _ => k))
  (at level 100, right associativity).

(** A pure expression that may raise. *)
Definition lift {A} (r : Result A) : M A := fun w => (r, w).

(** [try: m  except: h] with a bare [except], which catches everything. *)
Definition try_except {A} (m h : M A) : M A :=
  fun w =>
    match m w with
    | (Ok a, w') => (Ok a, w')
    | (Raised _, w') => h w'
    end.

(** [for x in l: body x] *)
Fixpoint for_ {A} (l : list A) (body : A -> M unit) : M unit :=
  match l with
  | [] => ret tt
  | x :: l' => body x ;;; for_ l' body
  end.

Definition log_call (c : call) (w : World) : World :=
  mkWorld (fs w) (stdout w) (calls w ++ [c]).

Definition set_fs (f : gmap string node) (w : World) : World :=
  mkWorld f (stdout w) (calls w).

(** The calls a computation adds to the log. *)
Definition new_calls {A} (m : M A) (w : World) : list call :=
  drop (length (calls w)) (calls (snd (m w))).

(** ** Library calls *)

(** [os.path.exists(path)] *)
Definition os_path_exists (path : string) : M bool :=
  fun w =>
    (Ok (match fs w !! path with Some _ => true | None => false end),
     log_call (CExists path) w).

(** [os.makedirs(path)] for a path of one component, which is all the
    script passes: the entry must be absent and the working directory
    must accept the new entry. *)
Definition os_makedirs (env : Env) (path : string) : M unit :=
  fun w =>
    let w := log_call (CMakedirs path) w in
    match fs w !! path with
    | Some _ => (Raised FileExistsError, w)
    | None =>
        if denied env path then (Raised PermissionError, w)
        else (Ok tt, set_fs (<[path := Dir]> (fs w)) w)
    end.

(** [Image.new(mode, size, color=color)] *)
Definition Image_new (mode : string) (size : Z * Z) (color : string) : M Image :=
  fun w => (Ok (mkImage mode size color []), log_call (CImageNew mode size color) w).

(** [ImageFont.truetype(file, size)] *)
Definition ImageFont_truetype (env : Env) (file : string) (size : Z) : M Font :=
  fun w =>
    let w := log_call (CTruetype file size) w in
    match truetype_fails env file size with
    | Some e => (Raised e, w)
    | None => (Ok (FreeTypeFont file size), w)
    end.

(** [ImageFont.load_default()] *)
Definition ImageFont_load_default : M Font :=
  fun w => (Ok DefaultFont, log_call CLoadDefault w).

(** The box of [text] when it is drawn at [xy]: the box at the nominal
    origin, translated. *)
Definition text_box (env : Env) (xy : Z * Z) (text : string) (font : Font) : BBox :=
  let b := font_bbox env font text in
  mkBBox (fst xy + bb_left b) (snd xy + bb_top b)
         (fst xy + bb_right b) (snd xy + bb_bottom b).

(** [draw.textbbox(xy, text, font=font)] *)
Definition draw_textbbox (env : Env) (xy : Z * Z) (text : string) (font : Font)
  : M BBox :=
  fun w => (Ok (text_box env xy text font), log_call (CTextbbox xy text font) w).

(** [draw.text(xy, text, fill=fill, font=font)]: the canvas behind [draw]
    is updated in place; the model returns the updated canvas. *)
Definition draw_text (img : Image) (xy : Z * Z) (text fill : string) (font : Font)
  : M Image :=
  fun w =>
    (Ok (mkImage (im_mode img) (im_size img) (im_color img)
           (im_texts img ++ [mkTextOp xy text fill font])),
     log_call (CText xy text fill font) w).

(** The directory part of a path: [Some d] when the path is [d/name],
    [None] when it has no slash. *)
Fixpoint dirname (p : string) : option string :=
  match p with
  | EmptyString => None
  | String c p' =>
      match dirname p' with
      | Some d => Some (String c d)
      | None => if Ascii.eqb c "/"%char then Some EmptyString else None
      end
  end.

(** Opening [path] with mode ["w+b"]: the error raised, if any. *)
Definition open_error (env : Env) (f : gmap string node) (path : string)
  : option exn :=
  let parent :=
    match dirname path with
    | None => None
    | Some d =>
        match f !! d with
        | None => Some FileNotFoundError
        | Some (File _) => Some NotADirectoryError
        | Some Dir => None
        end
    end in
  match parent with
  | Some e => Some e
  | None =>
      match f !! path with
      | Some Dir => Some IsADirectoryError
      | _ => if denied env path then Some PermissionError else None
      end
  end.

(** [img.save(path)] with a [.png] name.  Pillow opens the file for
    writing, which truncates or creates it, and writes the encoding.
    When the write fails, a file that the call created is removed and
    one that existed before keeps what had reached it. *)
Definition Image_save (env : Env) (img : Image) (path : string) : M unit :=
  fun w =>
    let w := log_call (CSave path img) w in
    match open_error env (fs w) path with
    | Some e => (Raised e, w)
    | None =>
        match write_fault env path with
        | Some junk =>
            (Raised (OSError "No space left on device"),
             match fs w !! path with
             | Some _ => set_fs (<[path := File junk]> (fs w)) w
             | None => w
             end)
        | None => (Ok tt, set_fs (<[path := File (png_encode env img)]> (fs w)) w)
        end
    end.

(** [print(line)] *)
Definition print (line : string) : M unit :=
  fun w => (Ok tt, mkWorld (fs w) (stdout w ++ [line]) (calls w ++ [CPrint line])).

(** ** The script *)

Definition sizes : list Z := [192; 512].

(** [f'public/icon-{size}x{size}.png'] *)
Definition icon_path (size : Z) : string :=
  "public/icon-" +:+ str size +:+ "x" +:+ str size +:+ ".png".

(** [f'Created icon-{size}x{size}.png'] *)
Definition created_line (size : Z) : string :=
  "Created icon-" +:+ str size +:+ "x" +:+ str size +:+ ".png".

Definition done_line : string := "All icons generated!".

(** Lines 16 to 22: the font, with the bare [except] around both the
    size computation and the load. *)
Definition font (env : Env) (size : Z) : M Font :=
  try_except
    (font_size <- lift (int_mul_float size float_0_4) ;;
     ImageFont_truetype env "arial.ttf" font_size)
    ImageFont_load_default.

(** The draw origin of line 29. *)
Definition position (size text_width text_height : Z) : Z * Z :=
  (floordiv (size - text_width) 2, floordiv (size - text_height) 2).

(** Lines 11 to 34: the body of the loop. *)
Definition body (env : Env) (size : Z) : M unit :=
  img <- Image_new "RGB" (size, size) "#3b82f6" ;;
  font <- font env size ;;
  let text := "B" in
  bbox <- draw_textbbox env (0, 0) text font ;;
  let text_width := bb_right bbox - bb_left bbox in
  let text_height := bb_bottom bbox - bb_top bbox in
  let position := position size text_width text_height in
  img <- draw_text img position text "white" font ;;
  Image_save env img (icon_path size) ;;;
  print (created_line size).

(** Lines 5 and 6. *)
Definition ensure_public (env : Env) : M unit :=
  present <- os_path_exists "public" ;;
  if negb present then os_makedirs env "public" else ret tt.

(** The whole script. *)
Definition main (env : Env) : M unit :=
  ensure_public env ;;;
  for_ sizes (body env) ;;;
  print done_line.

(** ** What one iteration computes

    The canvas and the library calls of an iteration depend on the size
    and on the host only, never on the world.  They are spelled out here
    and [body_run] below proves that [body] computes exactly them. *)

Definition add_calls (cs : list call) (w : World) : World :=
  mkWorld (fs w) (stdout w) (calls w ++ cs).

(** The font that [font] resolves. *)
Definition chosen_font (env : Env) (size : Z) : Font :=
  match int_mul_float size float_0_4 with
  | Ok pt =>
      match truetype_fails env "arial.ttf" pt with
      | None => FreeTypeFont "arial.ttf" pt
      | Some _ => DefaultFont
      end
  | Raised _ => DefaultFont
  end.

Definition font_calls (env : Env) (size : Z) : list call :=
  match int_mul_float size float_0_4 with
  | Ok pt =>
      CTruetype "arial.ttf" pt ::
      match truetype_fails env "arial.ttf" pt with
      | None => []
      | Some _ => [CLoadDefault]
      end
  | Raised _ => [CLoadDefault]
  end.

Definition glyph_width (env : Env) (f : Font) : Z :=
  bb_right (font_bbox env f "B") - bb_left (font_bbox env f "B").

Definition glyph_height (env : Env) (f : Font) : Z :=
  bb_bottom (font_bbox env f "B") - bb_top (font_bbox env f "B").

Definition origin (env : Env) (size : Z) : Z * Z :=
  position size (glyph_width env (chosen_font env size))
                (glyph_height env (chosen_font env size)).

(** The canvas handed to [save]. *)
Definition icon (env : Env) (size : Z) : Image :=
  mkImage "RGB" (size, size) "#3b82f6"
    [mkTextOp (origin env size) "B" "white" (chosen_font env size)].

(** The calls of an iteration up to, and without, the save. *)
Definition draw_calls (env : Env) (size : Z) : list call :=
  CImageNew "RGB" (size, size) "#3b82f6" ::
  font_calls env size ++
  [CTextbbox (0, 0) "B" (chosen_font env size);
   CText (origin env size) "B" "white" (chosen_font env size)].

(** The calls of an iteration that completes. *)
Definition iter_calls (env : Env) (size : Z) : list call :=
  draw_calls env size ++
  [CSave (icon_path size) (icon env size); CPrint (created_line size)].

(** The file system after the saves of [l], in order. *)
Definition saved (env : Env) (l : list Z) (f : gmap string node)
  : gmap string node :=
  foldl (fun f s => <[icon_path s := File (png_encode env (icon env s))]> f) f l.

(** The boxes that the texts drawn on a canvas occupy on it, oldest
    first: the box of each text at the origin it was drawn at. *)
Definition canvas_boxes (env : Env) (img : Image) : list BBox :=
  map (fun op => text_box env (to_origin op) (to_text op) (to_font op))
      (im_texts img).

(** The file of size [s] can be written in the file system [f]. *)
Definition icon_writable (env : Env) (f : gmap string node) (s : Z) : Prop :=
  f !! icon_path s ≠ Some Dir /\
  denied env (icon_path s) = false /\
  write_fault env (icon_path s) = None.

(** Calls that look at, or create, a directory. *)
Definition is_dir_call (c : call) : bool :=
  match c with
  | CExists _ | CMakedirs _ => true
  | _ => false
  end.

Definition is_save (c : call) : bool :=
  match c with
  | CSave _ _ => true
  | _ => false
  end.

Definition is_print (c : call) : bool :=
  match c with
  | CPrint _ => true
  | _ => false
  end.

(** The preferred font cannot be had: the size computation or the load raises. *)
Definition preferred_font_fails (env : Env) (size : Z) : Prop :=
  match int_mul_float size float_0_4 with
  | Ok pt => truetype_fails env "arial.ttf" pt ≠ None
  | Raised _ => True
  end.

(** The script gets past the directory step and on to a loop that can
    succeed: [public] is a directory, or is absent and can be created. *)
Definition public_ready (env : Env) (f : gmap string node) : Prop :=
  f !! "public" = Some Dir \/ (f !! "public" = None /\ denied env "public" = false).

(** The calls of the directory step. *)
Definition dir_calls (f : gmap string node) : list call :=
  CExists "public" ::
  match f !! "public" with
  | Some _ => []
  | None => [CMakedirs "public"]
  end.

(** Two hosts that agree on everything but on which exception a font
    load raises when it raises. *)
Definition same_but_font_error (e1 e2 : Env) : Prop :=
  (forall file pt, truetype_fails e1 file pt = None <-> truetype_fails e2 file pt = None) /\
  (forall f text, font_bbox e1 f text = font_bbox e2 f text) /\
  (forall img, png_encode e1 img = png_encode e2 img) /\
  (forall p, denied e1 p = denied e2 p) /\
  (forall p, write_fault e1 p = write_fault e2 p).

(** The [n] integers from [lo] on. *)
Fixpoint zrange (lo : Z) (n : nat) : list Z :=
  match n with
  | O => []
  | S n' => lo :: zrange (lo + 1) n'
  end.

(** The integers from [-n] to [n]. *)
Definition symmetric_range (n : Z) : list Z := zrange (- n) (Z.to_nat (2 * n + 1)).

(** [int(s * 0.4)] is four tenths of [s], truncated towards zero. *)
Definition point_size_truncates (s : Z) : bool :=
  match int_mul_float s float_0_4 with
  | Ok pt => pt =? Z.quot (4 * s) 10
  | Raised _ => false
  end.

(** ** Sample hosts and worlds *)

Definition png_signature : list Byte.byte :=
  [Byte.x89; Byte.x50; Byte.x4e; Byte.x47; Byte.x0d; Byte.x0a; Byte.x1a; Byte.x0a].

Definition sample_bbox (f : Font) (text : string) : BBox :=
  match f with
  | DefaultFont => mkBBox 0 3 6 11
  | FreeTypeFont _ pt => mkBBox (pt `div` 15) (pt `div` 4) (2 * pt `div` 3) pt
  end.

(** A host without arial: every load raises. *)
Definition host_without_arial : Env :=
  mkEnv (fun _ _ => Some (OSError "cannot open resource")) sample_bbox
        (fun _ => png_signature) (fun _ => false) (fun _ => None).

(** A host on which arial loads. *)
Definition host_with_arial : Env :=
  mkEnv (fun _ _ => None) sample_bbox
        (fun _ => png_signature) (fun _ => false) (fun _ => None).

(** A host on which the disk fills up while the second icon is written. *)
Definition host_disk_full : Env :=
  mkEnv (fun _ _ => None) sample_bbox (fun _ => png_signature) (fun _ => false)
        (fun p => if String.eqb p "public/icon-512x512.png" then Some [] else None).

(** A host whose built-in font is far larger than either canvas. *)
Definition host_huge_glyph : Env :=
  mkEnv (fun _ _ => Some KeyboardInterrupt) (fun _ _ => mkBBox 10 20 710 920)
        (fun _ => png_signature) (fun _ => false) (fun _ => None).

(** A host without arial on which the load is interrupted instead. *)
Definition host_interrupted : Env :=
  mkEnv (fun _ _ => Some KeyboardInterrupt) sample_bbox
        (fun _ => png_signature) (fun _ => false) (fun _ => None).

(** A host on which the working directory is read-only. *)
Definition host_read_only : Env :=
  mkEnv (fun _ _ => None) sample_bbox (fun _ => png_signature) (fun _ => true)
        (fun _ => None).

Definition empty_world : World := mkWorld ∅ [] [].

(** A working directory that holds an empty [public]. *)
Definition world_public_dir : World := mkWorld {["public" := Dir]} [] [].

(** A working directory with a stray file, an old icon and a directory
    where the second icon should go. *)
Definition world_cluttered : World :=
  mkWorld (<["notes.txt" := File []]>
             (<["public/icon-192x192.png" := File []]>
                (<["public/icon-512x512.png" := Dir]>
                   (<["public" := Dir]> ∅)))) ["earlier output"] [].


Arguments draw_calls : simpl never.
Arguments iter_calls : simpl never.
Arguments font_calls : simpl never.
Arguments chosen_font : simpl never.
Arguments origin : simpl never.
Arguments icon : simpl never.
Arguments icon_path : simpl never.
Arguments created_line : simpl never.

(** * Properties *)

(** Re-associate appended logs to the right, without unfolding anything. *)
Ltac assoc_right :=
  repeat match goal with
         | |- context [(?a ++ ?b) ++ ?c] => rewrite <- (app_assoc a b c)
         end.

(** The three ways the font step can go: the load succeeds, the load
    raises, the size computation raises. *)
Ltac font_cases env s :=
  unfold draw_calls, font_calls;
  destruct (int_mul_float s float_0_4) as [?pt|?e];
  [destruct (truetype_fails env "arial.ttf" _)|].

(** On a closed goal about a concrete log: compute the log and find the call. *)
Ltac find_call :=
  vm_compute; repeat first [apply list_elem_of_here | apply list_elem_of_further].

(** Facts about the two sizes and their file names. *)
Create HintDb icons.

(** From here on the host is fixed. *)
Section Properties.

Variable env : Env.

(** ** The monad and the log *)

Lemma add_calls_nil w : add_calls [] w = w.
Proof. destruct w; unfold add_calls; simpl. by rewrite app_nil_r. Qed.

Lemma add_calls_app a b w : add_calls b (add_calls a w) = add_calls (a ++ b) w.
Proof. unfold add_calls; simpl. by rewrite app_assoc. Qed.

Lemma log_call_add c w : log_call c w = add_calls [c] w.
Proof. reflexivity. Qed.

Lemma new_calls_eq {A} (m : M A) w cs :
  calls (snd (m w)) = calls w ++ cs -> new_calls m w = cs.
Proof. intros H. unfold new_calls. rewrite H. by rewrite drop_app_length. Qed.

Lemma for_app {A} (l1 l2 : list A) (f : A -> M unit) w :
  for_ (l1 ++ l2) f w =
  match for_ l1 f w with
  | (Ok _, w') => for_ l2 f w'
  | (Raised e, w') => (Raised e, w')
  end.
Proof.
  revert w. induction l1 as [|x l1 IH]; intros w; simpl; [done|].
  unfold bind. destruct (f x w) as [[[]|e] w1]; [apply IH | done].
Qed.

(** ** File names *)

Lemma string_length_app (a b : string) :
  String.length (a +:+ b) = (String.length a + String.length b)%nat.
Proof. induction a as [|c a IH]; simpl; [done | by rewrite IH]. Qed.

Lemma string_app_same_length (a b s t : string) :
  String.length a = String.length b -> a +:+ s = b +:+ t -> a = b.
Proof.
  revert b. induction a as [|c a IH]; intros [|d b]; simpl; try done.
  intros [= Hl] [= -> H]. f_equal. by apply IH.
Qed.

(** Different sizes are saved under different names. *)
Lemma icon_path_inj a b : icon_path a = icon_path b -> a = b.
Proof.
  unfold icon_path, str. intros H.
  apply (String.app_inj "public/icon-") in H.
  assert (String.length (pretty a) = String.length (pretty b)) as Hl.
  { apply (f_equal String.length) in H.
    rewrite !string_length_app in H. simpl in H. lia. }
  apply (inj pretty). exact (string_app_same_length _ _ _ _ Hl H).
Qed.

Lemma icon_path_public s : icon_path s ≠ "public".
Proof. unfold icon_path. simpl. discriminate. Qed.

Lemma sizes_NoDup : NoDup sizes.
Proof.
  unfold sizes. apply NoDup_cons. split; [|apply NoDup_singleton].
  by intros H%list_elem_of_singleton.
Qed.

Lemma in_sizes_192 : 192 ∈ sizes.
Proof. unfold sizes. apply list_elem_of_here. Qed.

Lemma in_sizes_512 : 512 ∈ sizes.
Proof. unfold sizes. apply list_elem_of_further, list_elem_of_here. Qed.

Lemma sizes_inv s : s ∈ sizes -> s = 192 \/ s = 512.
Proof.
  unfold sizes. intros [->|Hs]%elem_of_cons; [by left|].
  apply list_elem_of_singleton in Hs. by right.
Qed.

#[local] Hint Resolve sizes_NoDup in_sizes_192 in_sizes_512 icon_path_public : icons.

Example icon_path_192 : icon_path 192 = "public/icon-192x192.png".
Proof. reflexivity. Qed.

Example icon_path_512 : icon_path 512 = "public/icon-512x512.png".
Proof. reflexivity. Qed.

Lemma created_line_not_done s : created_line s ≠ done_line.
Proof. unfold created_line, done_line. simpl. discriminate. Qed.

(** ** The font step never raises *)

Lemma font_run size w :
  font env size w = (Ok (chosen_font env size), add_calls (font_calls env size) w).
Proof.
  unfold font, try_except, bind, lift, ImageFont_truetype, ImageFont_load_default,
    chosen_font, font_calls.
  destruct (int_mul_float size float_0_4) as [pt|e]; simpl.
  - destruct (truetype_fails env "arial.ttf" pt); simpl;
      rewrite ?log_call_add, ?add_calls_app; reflexivity.
  - reflexivity.
Qed.

(** The font calls are loads, nothing else. *)
Lemma font_calls_inv size c :
  c ∈ font_calls env size ->
  (exists pt, int_mul_float size float_0_4 = Ok pt /\ c = CTruetype "arial.ttf" pt) \/
  c = CLoadDefault.
Proof.
  unfold font_calls.
  destruct (int_mul_float size float_0_4) as [pt|e].
  - intros [->|H]%elem_of_cons; [left; eauto|].
    destruct (truetype_fails env "arial.ttf" pt).
    + apply list_elem_of_singleton in H. by right.
    + by apply elem_of_nil in H.
  - intros H%list_elem_of_singleton. by right.
Qed.

(** ** Saving *)

Lemma save_calls img path w :
  calls (snd (Image_save env img path w)) = calls w ++ [CSave path img].
Proof.
  unfold Image_save. simpl.
  destruct (open_error _ _ _); [done|].
  destruct (write_fault env path); [|done].
  by destruct (fs w !! path).
Qed.

Lemma save_stdout img path w :
  stdout (snd (Image_save env img path w)) = stdout w.
Proof.
  unfold Image_save. simpl.
  destruct (open_error _ _ _); [done|].
  destruct (write_fault env path); [|done].
  by destruct (fs w !! path).
Qed.

(** A save touches no path but its own. *)
Lemma save_other img path w p :
  p ≠ path -> fs (snd (Image_save env img path w)) !! p = fs w !! p.
Proof.
  intros Hne. unfold Image_save. simpl.
  destruct (open_error _ _ _); [done|].
  destruct (write_fault env path).
  - destruct (fs w !! path); simpl; [|done]. by rewrite lookup_insert_ne.
  - simpl. by rewrite lookup_insert_ne.
Qed.

Lemma save_ok_inv img path w w' :
  Image_save env img path w = (Ok tt, w') ->
  open_error env (fs w) path = None /\ write_fault env path = None /\
  w' = mkWorld (<[path := File (png_encode env img)]> (fs w)) (stdout w)
         (calls w ++ [CSave path img]).
Proof.
  unfold Image_save. simpl.
  destruct (open_error _ _ _); [done|].
  destruct (write_fault env path); [done|].
  intros [= <-]. done.
Qed.

Lemma save_ok img path w :
  open_error env (fs w) path = None -> write_fault env path = None ->
  Image_save env img path w =
  (Ok tt, mkWorld (<[path := File (png_encode env img)]> (fs w)) (stdout w)
            (calls w ++ [CSave path img])).
Proof. intros H1 H2. unfold Image_save. simpl. by rewrite H1, H2. Qed.


(** Opening the file of one of the two icons. *)
Lemma open_error_icon f s :
  s ∈ sizes ->
  open_error env f (icon_path s) =
  match f !! "public" with
  | None => Some FileNotFoundError
  | Some (File _) => Some NotADirectoryError
  | Some Dir =>
      match f !! icon_path s with
      | Some Dir => Some IsADirectoryError
      | _ => if denied env (icon_path s) then Some PermissionError else None
      end
  end.
Proof.
  intros Hs.
  assert (dirname (icon_path s) = Some "public") as Hd
    by (by destruct (sizes_inv s Hs) as [->| ->]).
  unfold open_error. rewrite Hd.
  by destruct (f !! "public") as [[|?]|].
Qed.

Lemma open_ok_icon f s :
  s ∈ sizes ->
  open_error env f (icon_path s) = None <->
  f !! "public" = Some Dir /\ f !! icon_path s ≠ Some Dir /\
  denied env (icon_path s) = false.
Proof.
  intros Hs. rewrite open_error_icon by done.
  destruct (f !! "public") as [[|?]|];
    [|split; [discriminate | intros (? & _); discriminate]..].
  destruct (f !! icon_path s) as [[|?]|], (denied env (icon_path s));
    split; try discriminate; try (intros (_ & ? & ?); congruence); by intros _.
Qed.

Lemma open_error_not_exists f path : open_error env f path ≠ Some FileExistsError.
Proof.
  unfold open_error.
  destruct (dirname path) as [d|]; [destruct (f !! d) as [[|?]|]|]; try done;
    destruct (f !! path) as [[|?]|]; try done;
    by destruct (denied env path).
Qed.

Lemma save_not_exists img path w :
  fst (Image_save env img path w) ≠ Raised FileExistsError.
Proof.
  unfold Image_save. cbn.
  destruct (open_error env (fs w) path) as [e|] eqn:Ho.
  - cbn. intros [= ->]. by apply open_error_not_exists in Ho.
  - by destruct (write_fault env path).
Qed.

(** ** One iteration is: draw, then save, then print *)

Lemma body_run size w :
  body env size w =
  (Image_save env (icon env size) (icon_path size) ;;; print (created_line size))
    (add_calls (draw_calls env size) w).
Proof.
  unfold body, Image_new, draw_textbbox, draw_text.
  unfold bind at 1. cbv beta iota.
  unfold bind at 1. rewrite font_run.
  unfold bind at 1. cbv beta iota.
  unfold bind at 1. cbv beta iota.
  rewrite !log_call_add, !add_calls_app. reflexivity.
Qed.

Lemma body_ok_inv size w w' :
  body env size w = (Ok tt, w') ->
  open_error env (fs w) (icon_path size) = None /\
  write_fault env (icon_path size) = None /\
  w' = mkWorld (<[icon_path size := File (png_encode env (icon env size))]> (fs w))
         (stdout w ++ [created_line size]) (calls w ++ iter_calls env size).
Proof.
  rewrite body_run. unfold bind.
  destruct (Image_save _ _ _ _) as [[[]|e] w1] eqn:Hs; [|done].
  apply save_ok_inv in Hs as (Ho & Hf & ->). cbn in *.
  intros [= <-]. repeat split; try done.
  unfold iter_calls. by assoc_right.
Qed.

Lemma body_ok size w :
  open_error env (fs w) (icon_path size) = None ->
  write_fault env (icon_path size) = None ->
  body env size w =
  (Ok tt,
   mkWorld (<[icon_path size := File (png_encode env (icon env size))]> (fs w))
     (stdout w ++ [created_line size]) (calls w ++ iter_calls env size)).
Proof.
  intros Ho Hf. rewrite body_run. unfold bind.
  rewrite save_ok by done. unfold print, iter_calls. cbn.
  by assoc_right.
Qed.

(** An iteration can only raise in its save; nothing is printed then and
    no other path is touched. *)
Lemma body_raised_inv size w e w' :
  body env size w = (Raised e, w') ->
  Image_save env (icon env size) (icon_path size)
    (add_calls (draw_calls env size) w) = (Raised e, w') /\
  stdout w' = stdout w /\
  calls w' = calls w ++ draw_calls env size ++ [CSave (icon_path size) (icon env size)] /\
  (forall p, p ≠ icon_path size -> fs w' !! p = fs w !! p).
Proof.
  rewrite body_run. unfold bind.
  destruct (Image_save _ _ _ _) as [[[]|e1] w1] eqn:Hs; [done|].
  intros [= <- <-]. split; [done|].
  pose proof (save_stdout (icon env size) (icon_path size)
                (add_calls (draw_calls env size) w)) as H1.
  pose proof (save_calls (icon env size) (icon_path size)
                (add_calls (draw_calls env size) w)) as H2.
  rewrite Hs in H1, H2. cbn in H1, H2.
  split; [done|]. split; [rewrite H2; by assoc_right|].
  intros p Hp.
  pose proof (save_other (icon env size) (icon_path size)
                (add_calls (draw_calls env size) w) p Hp) as H3.
  by rewrite Hs in H3.
Qed.

(** The log of an iteration, whatever its outcome. *)
Lemma body_calls size w :
  exists tl, calls (snd (body env size w)) =
             calls w ++ draw_calls env size ++
             CSave (icon_path size) (icon env size) :: tl /\
             (tl = [] \/ tl = [CPrint (created_line size)]).
Proof.
  destruct (body env size w) as [[[]|e] w'] eqn:Hb.
  - apply body_ok_inv in Hb as (_ & _ & ->). cbn.
    exists [CPrint (created_line size)]. split; [|by right].
    unfold iter_calls. by assoc_right.
  - apply body_raised_inv in Hb as (_ & _ & Hc & _). cbn.
    exists []. split; [done | by left].
Qed.

Lemma body_new_calls size w :
  exists tl, new_calls (body env size) w =
             draw_calls env size ++ CSave (icon_path size) (icon env size) :: tl /\
             (tl = [] \/ tl = [CPrint (created_line size)]).
Proof.
  destruct (body_calls size w) as (tl & Hc & Htl).
  exists tl. split; [|done]. by apply new_calls_eq.
Qed.

(** The one text call of an iteration. *)
Lemma body_text_call size w xy text fill f :
  CText xy text fill f ∈ new_calls (body env size) w ->
  xy = origin env size /\ text = "B" /\ fill = "white" /\ f = chosen_font env size.
Proof.
  destruct (body_new_calls size w) as (tl & -> & Htl).
  unfold draw_calls.
  rewrite elem_of_app, !elem_of_cons, elem_of_app, !elem_of_cons, elem_of_nil.
  intros [[H|[H|[H|[H|[]]]]]|[H|H]]; try done.
  - apply font_calls_inv in H as [(pt & _ & H)|H]; done.
  - by simplify_eq.
  - destruct Htl as [->| ->].
    + by apply elem_of_nil in H.
    + by apply list_elem_of_singleton in H.
Qed.

(** The one save of an iteration. *)
Lemma body_save_call size w path img :
  CSave path img ∈ new_calls (body env size) w ->
  path = icon_path size /\ img = icon env size.
Proof.
  destruct (body_new_calls size w) as (tl & -> & Htl).
  rewrite elem_of_app, elem_of_cons. intros [H|[H|H]].
  - exfalso. revert H. unfold draw_calls.
    rewrite !elem_of_cons, elem_of_app, !elem_of_cons, elem_of_nil.
    intros [H|[H|[H|[H|[]]]]]; try done.
    by apply font_calls_inv in H as [(pt & _ & H)|H].
  - split; congruence.
  - destruct Htl as [->| ->].
    + by apply elem_of_nil in H.
    + by apply list_elem_of_singleton in H.
Qed.

Lemma body_save_call_in size w :
  CSave (icon_path size) (icon env size) ∈ new_calls (body env size) w.
Proof.
  destruct (body_new_calls size w) as (tl & -> & _).
  rewrite elem_of_app, elem_of_cons. tauto.
Qed.

Lemma body_text_call_in size w :
  CText (origin env size) "B" "white" (chosen_font env size)
    ∈ new_calls (body env size) w.
Proof.
  destruct (body_new_calls size w) as (tl & -> & _).
  unfold draw_calls.
  rewrite elem_of_app, !elem_of_cons, elem_of_app, !elem_of_cons. tauto.
Qed.

(** ** Which calls occur where *)

(** Before its save an iteration saves nothing, prints nothing and
    does not look at directories. *)
Lemma draw_calls_filter_save s : List.filter is_save (draw_calls env s) = [].
Proof. font_cases env s; reflexivity. Qed.

Lemma draw_calls_filter_dir s : List.filter is_dir_call (draw_calls env s) = [].
Proof. font_cases env s; reflexivity. Qed.

Lemma draw_calls_filter_print s : List.filter is_print (draw_calls env s) = [].
Proof. font_cases env s; reflexivity. Qed.

Lemma filter_nil_not_in (f : call -> bool) (l : list call) (c : call) :
  List.filter f l = [] -> f c = true -> c ∉ l.
Proof.
  intros Hf Hc Hin. apply list_elem_of_In in Hin.
  assert (In c (List.filter f l)) as H by (apply filter_In; done).
  rewrite Hf in H. done.
Qed.

Lemma iter_calls_filter_save s :
  List.filter is_save (iter_calls env s) = [CSave (icon_path s) (icon env s)].
Proof.
  unfold iter_calls. rewrite List.filter_app, draw_calls_filter_save. reflexivity.
Qed.

Lemma iter_calls_filter_dir s : List.filter is_dir_call (iter_calls env s) = [].
Proof.
  unfold iter_calls. rewrite List.filter_app, draw_calls_filter_dir. reflexivity.
Qed.

Lemma save_in_iter_calls s path img :
  CSave path img ∈ iter_calls env s -> path = icon_path s /\ img = icon env s.
Proof.
  unfold iter_calls. rewrite elem_of_app, !elem_of_cons, elem_of_nil.
  intros [H|[H|[H|[]]]]; [|by simplify_eq|done].
  by apply (filter_nil_not_in is_save _ _ (draw_calls_filter_save s)) in H.
Qed.

Lemma save_in_loop_calls l path img :
  CSave path img ∈ concat (map (iter_calls env) l) ->
  exists s, s ∈ l /\ path = icon_path s /\ img = icon env s.
Proof.
  induction l as [|a l IH]; cbn [map concat].
  - by intros ?%elem_of_nil.
  - rewrite elem_of_app. intros [H|H].
    + apply save_in_iter_calls in H. exists a. split; [apply list_elem_of_here | done].
    + destruct (IH H) as (s & Hs & ?). exists s. split; [by apply list_elem_of_further | done].
Qed.

(** ** The loop *)

Lemma for_body_ok_inv l w w' :
  for_ l (body env) w = (Ok tt, w') ->
  w' = mkWorld (saved env l (fs w)) (stdout w ++ map created_line l)
         (calls w ++ concat (map (iter_calls env) l)).
Proof.
  revert w. induction l as [|s l IH]; intros w; cbn.
  - intros [= <-]. destruct w; cbn. by rewrite !app_nil_r.
  - unfold bind. destruct (body env s w) as [[[]|e] w1] eqn:Hb; [|done].
    apply body_ok_inv in Hb as (_ & _ & ->). intros H.
    apply IH in H as ->. cbn. unfold saved. cbn.
    by assoc_right.
Qed.

(** A loop that raises does so in the save of some size; the sizes
    before it completed and the sizes after it were never started. *)
Lemma for_body_raised_inv l w e w' :
  for_ l (body env) w = (Raised e, w') ->
  exists pre s post w1,
    l = pre ++ s :: post /\
    for_ pre (body env) w = (Ok tt, w1) /\
    body env s w1 = (Raised e, w').
Proof.
  revert w. induction l as [|s l IH]; intros w; cbn; [done|].
  unfold bind. destruct (body env s w) as [[[]|e1] w1] eqn:Hb.
  - intros H. apply IH in H as (pre & s' & post & w2 & -> & Hpre & Hs).
    exists (s :: pre), s', post, w2. cbn. unfold bind. by rewrite Hb.
  - intros [= <- <-]. by exists [], s, l, w.
Qed.

(** The loop never looks at, or creates, a directory, whatever its outcome. *)
Lemma for_calls_no_dir l w :
  exists cs, calls (snd (for_ l (body env) w)) = calls w ++ cs /\
             List.filter is_dir_call cs = [].
Proof.
  revert w. induction l as [|s l IH]; intros w.
  - exists []. cbn. by rewrite app_nil_r.
  - cbn [for_]. unfold bind.
    destruct (body env s w) as [[[]|e] w1] eqn:Hb.
    + apply body_ok_inv in Hb as (_ & _ & ->).
      destruct (IH (mkWorld (<[icon_path s := File (png_encode env (icon env s))]> (fs w))
                      (stdout w ++ [created_line s]) (calls w ++ iter_calls env s)))
        as (cs & Hc & Hf).
      exists (iter_calls env s ++ cs). rewrite Hc. cbn [calls]. split; [by assoc_right|].
      by rewrite List.filter_app, iter_calls_filter_dir, Hf.
    + apply body_raised_inv in Hb as (_ & _ & Hc & _).
      exists (draw_calls env s ++ [CSave (icon_path s) (icon env s)]).
      cbn [snd]. split; [done|].
      by rewrite List.filter_app, draw_calls_filter_dir.
Qed.

(** Once [public] exists, no iteration removes it. *)
Lemma loop_keeps_public l w :
  is_Some (fs w !! "public") ->
  is_Some (fs (snd (for_ l (body env) w)) !! "public").
Proof.
  revert w. induction l as [|s l IH]; intros w H0; [done|].
  cbn [for_]. unfold bind.
  destruct (body env s w) as [[[]|e] w3] eqn:Hb.
  - apply IH. apply body_ok_inv in Hb as (_ & _ & ->). cbn [fs].
    by rewrite lookup_insert_ne by apply icon_path_public.
  - cbn [snd]. apply body_raised_inv in Hb as (_ & _ & _ & Ho).
    rewrite Ho; [done|]. symmetry. apply icon_path_public.
Qed.

Lemma saved_lookup_other l f p :
  (forall s, s ∈ l -> icon_path s ≠ p) -> saved env l f !! p = f !! p.
Proof.
  revert f. induction l as [|a l IH]; intros f H; [done|].
  unfold saved in *. simpl. rewrite IH.
  - apply lookup_insert_ne. apply H. apply list_elem_of_here.
  - intros s Hs. apply H. by apply list_elem_of_further.
Qed.

Lemma saved_lookup l f s :
  NoDup l -> s ∈ l ->
  saved env l f !! icon_path s = Some (File (png_encode env (icon env s))).
Proof.
  revert f. induction l as [|a l IH]; intros f Hnd Hs.
  - by apply elem_of_nil in Hs.
  - apply NoDup_cons in Hnd as [Ha Hnd].
    apply elem_of_cons in Hs as [->|Hs].
    + change (saved env (a :: l) f) with
        (saved env l (<[icon_path a := File (png_encode env (icon env a))]> f)).
      rewrite saved_lookup_other.
      * apply lookup_insert_eq.
      * intros s Hs Heq. apply icon_path_inj in Heq. by subst.
    + by apply IH.
Qed.

Lemma for_sizes_ok_inv w w' :
  for_ sizes (body env) w = (Ok tt, w') ->
  fs w !! "public" = Some Dir /\
  (forall s, s ∈ sizes -> icon_writable env (fs w) s) /\
  w' = mkWorld (saved env sizes (fs w)) (stdout w ++ map created_line sizes)
         (calls w ++ concat (map (iter_calls env) sizes)).
Proof.
  intros H. pose proof (for_body_ok_inv _ _ _ H) as Hw'.
  split; [|split; [|done]].
  - unfold sizes in H. cbn in H. unfold bind in H.
    destruct (body env 192 w) as [[[]|e] w1] eqn:Hb; [|done].
    apply body_ok_inv in Hb as (Ho & _ & _).
    apply open_ok_icon in Ho as (? & _); auto with icons.
  - unfold sizes in H. cbn in H. unfold bind in H.
    destruct (body env 192 w) as [[[]|e] w1] eqn:Hb; [|done].
    apply body_ok_inv in Hb as (Ho1 & Hf1 & ->).
    destruct (body env 512 _) as [[[]|e] w2] eqn:Hb2; [|done].
    apply body_ok_inv in Hb2 as (Ho2 & Hf2 & _). cbn in Ho2.
    apply open_ok_icon in Ho1 as (_ & ? & ?); [|auto with icons].
    apply open_ok_icon in Ho2 as (_ & Hn & ?); [|auto with icons].
    rewrite lookup_insert_ne in Hn by done.
    by intros s [->| ->]%sizes_inv.
Qed.

Lemma for_sizes_ok w :
  fs w !! "public" = Some Dir ->
  (forall s, s ∈ sizes -> icon_writable env (fs w) s) ->
  for_ sizes (body env) w =
  (Ok tt, mkWorld (saved env sizes (fs w)) (stdout w ++ map created_line sizes)
            (calls w ++ concat (map (iter_calls env) sizes))).
Proof.
  intros Hp Hw.
  destruct (Hw 192 in_sizes_192) as (Ha1 & Ha2 & Ha3).
  destruct (Hw 512 in_sizes_512) as (Hb1 & Hb2 & Hb3).
  unfold sizes. cbn. unfold bind.
  rewrite body_ok; [|apply open_ok_icon; auto with icons|done].
  rewrite body_ok; [| |done].
  - unfold ret, saved. cbn. rewrite app_nil_r. f_equal. f_equal; by assoc_right.
  - cbn. apply open_ok_icon; [auto with icons|].
    rewrite !lookup_insert_ne by done. done.
Qed.

(** ** The whole script *)

Lemma ensure_run w :
  ensure_public env w =
  match fs w !! "public" with
  | Some _ => (Ok tt, add_calls [CExists "public"] w)
  | None =>
      if denied env "public"
      then (Raised PermissionError, add_calls [CExists "public"; CMakedirs "public"] w)
      else (Ok tt, mkWorld (<["public" := Dir]> (fs w)) (stdout w)
                     (calls w ++ [CExists "public"; CMakedirs "public"]))
  end.
Proof.
  unfold ensure_public, bind, os_path_exists, os_makedirs. cbn.
  destruct (fs w !! "public") eqn:Hp; cbn; [done|].
  rewrite Hp. destruct (denied env "public");
    unfold add_calls, set_fs, log_call; cbn; by assoc_right.
Qed.

Lemma ensure_ok_inv w w1 :
  ensure_public env w = (Ok tt, w1) ->
  (is_Some (fs w !! "public") \/ denied env "public" = false) /\
  w1 = mkWorld (match fs w !! "public" with
                | Some _ => fs w
                | None => <["public" := Dir]> (fs w)
                end) (stdout w) (calls w ++ dir_calls (fs w)).
Proof.
  rewrite ensure_run. unfold dir_calls.
  destruct (fs w !! "public") as [n|] eqn:Hp.
  - intros [= <-]. split; [left; eauto | done].
  - destruct (denied env "public"); [done|]. intros [= <-]. split; [by right | done].
Qed.

Lemma main_run w :
  main env w =
  match ensure_public env w with
  | (Ok _, w1) =>
      match for_ sizes (body env) w1 with
      | (Ok _, w2) => print done_line w2
      | (Raised e, w2) => (Raised e, w2)
      end
  | (Raised e, w1) => (Raised e, w1)
  end.
Proof.
  unfold main, bind.
  destruct (ensure_public env w) as [[[]|e] w1]; [|done].
  by destruct (for_ sizes (body env) w1) as [[[]|e] w2].
Qed.

Lemma main_ok_inv w w' :
  main env w = (Ok tt, w') ->
  public_ready env (fs w) /\
  (forall s, s ∈ sizes -> icon_writable env (fs w) s) /\
  w' = mkWorld (saved env sizes (<["public" := Dir]> (fs w)))
         (stdout w ++ map created_line sizes ++ [done_line])
         (calls w ++ dir_calls (fs w) ++ concat (map (iter_calls env) sizes) ++
          [CPrint done_line]).
Proof.
  rewrite main_run.
  destruct (ensure_public env w) as [[[]|e] w1] eqn:He; [|done].
  destruct (for_ sizes (body env) w1) as [[[]|e] w2] eqn:Hf; [|done].
  apply ensure_ok_inv in He as (Hd & ->).
  apply for_sizes_ok_inv in Hf as (Hp & Hw & ->). cbn [fs stdout calls] in Hp, Hw |- *.
  unfold print. cbn [fs stdout calls].
  intros H%(f_equal snd). cbn [snd] in H. subst w'.
  destruct (fs w !! "public") as [n|] eqn:Hpub.
  - simplify_eq. split; [by left|]. split; [done|].
    rewrite (insert_id (fs w) "public" Dir Hpub). f_equal; by assoc_right.
  - destruct Hd as [[? ?]|Hd]; [done|].
    split; [by right|]. split.
    + intros s Hs. destruct (Hw s Hs) as (H1 & H2 & H3).
      rewrite lookup_insert_ne in H1 by (symmetry; by apply icon_path_public).
      done.
    + f_equal; by assoc_right.
Qed.

Lemma main_ok w :
  public_ready env (fs w) ->
  (forall s, s ∈ sizes -> icon_writable env (fs w) s) ->
  main env w =
  (Ok tt,
   mkWorld (saved env sizes (<["public" := Dir]> (fs w)))
     (stdout w ++ map created_line sizes ++ [done_line])
     (calls w ++ dir_calls (fs w) ++ concat (map (iter_calls env) sizes) ++
      [CPrint done_line])).
Proof.
  intros Hp Hw. rewrite main_run, ensure_run. unfold dir_calls.
  destruct Hp as [Hp|[Hp Hd]]; rewrite Hp.
  - rewrite for_sizes_ok by done. unfold print. cbn [fs stdout calls add_calls].
    rewrite (insert_id (fs w) "public" Dir Hp). f_equal. f_equal; by assoc_right.
  - rewrite Hd. rewrite for_sizes_ok.
    + unfold print. cbn [fs stdout calls]. f_equal. f_equal; by assoc_right.
    + cbn [fs]. apply lookup_insert_eq.
    + cbn [fs]. intros s Hs. destruct (Hw s Hs) as (H1 & H2 & H3).
      split; [|done].
      rewrite lookup_insert_ne by (symmetry; by apply icon_path_public). done.
Qed.

Lemma main_dir_calls w :
  List.filter is_dir_call (new_calls (main env) w) = dir_calls (fs w).
Proof.
  assert (exists cs, calls (snd (main env w)) = calls w ++ dir_calls (fs w) ++ cs /\
                     List.filter is_dir_call cs = []) as (cs & Hc & Hf).
  { rewrite main_run, ensure_run. unfold dir_calls.
    destruct (fs w !! "public") as [n|] eqn:Hp.
    - destruct (for_calls_no_dir sizes (add_calls [CExists "public"] w))
        as (cs & Hc & Hf).
      destruct (for_ sizes (body env) _) as [[[]|e] w2]; cbn [snd] in Hc.
      + exists (cs ++ [CPrint done_line]). unfold print. cbn [snd calls].
        rewrite Hc. cbn [calls add_calls]. split; [by assoc_right|].
        by rewrite List.filter_app, Hf.
      + exists cs. cbn [snd]. rewrite Hc. cbn [calls add_calls].
        split; [by assoc_right | done].
    - destruct (denied env "public").
      + exists []. cbn [snd calls add_calls]. by rewrite app_nil_r.
      + destruct (for_calls_no_dir sizes
                    (mkWorld (<["public" := Dir]> (fs w)) (stdout w)
                       (calls w ++ [CExists "public"; CMakedirs "public"])))
          as (cs & Hc & Hf).
        destruct (for_ sizes (body env) _) as [[[]|e] w2]; cbn [snd] in Hc.
        * exists (cs ++ [CPrint done_line]). unfold print. cbn [snd calls].
          rewrite Hc. cbn [calls]. split; [by assoc_right|].
          by rewrite List.filter_app, Hf.
        * exists cs. cbn [snd]. rewrite Hc. cbn [calls].
          split; [by assoc_right | done]. }
  rewrite (new_calls_eq _ _ _ Hc), List.filter_app, Hf, app_nil_r.
  unfold dir_calls. by destruct (fs w !! "public").
Qed.

Lemma main_not_exists w : fst (main env w) ≠ Raised FileExistsError.
Proof.
  rewrite main_run, ensure_run.
  assert (forall w1, fst (match for_ sizes (body env) w1 with
                          | (Ok _, w2) => print done_line w2
                          | (Raised e, w2) => (Raised e, w2)
                          end) ≠ Raised FileExistsError) as Hloop.
  { intros w1. destruct (for_ sizes (body env) w1) as [[[]|e] w2] eqn:Hf; [done|].
    apply for_body_raised_inv in Hf as (pre & s & post & w3 & _ & _ & Hb).
    apply body_raised_inv in Hb as (Hs & _). cbn [fst]. intros [= ->].
    by apply (save_not_exists (icon env s) (icon_path s)
                (add_calls (draw_calls env s) w3)); rewrite Hs. }
  destruct (fs w !! "public"); [apply Hloop|].
  destruct (denied env "public"); [done | apply Hloop].
Qed.

Lemma main_keeps_public w :
  fst (ensure_public env w) = Ok tt ->
  is_Some (fs (snd (main env w)) !! "public").
Proof.
  rewrite main_run, ensure_run. intros He.
  assert (forall w1, is_Some (fs w1 !! "public") ->
            is_Some (fs (snd (match for_ sizes (body env) w1 with
                              | (Ok _, w2) => print done_line w2
                              | (Raised e, w2) => (Raised e, w2)
                              end)) !! "public")) as Hrest.
  { intros w1 H1. pose proof (loop_keeps_public sizes w1 H1) as H.
    by destruct (for_ sizes (body env) w1) as [[[]|e] w2]. }
  destruct (fs w !! "public") as [n|] eqn:Hn.
  - apply Hrest. cbn [fs add_calls]. rewrite Hn. eauto.
  - destruct (denied env "public"); [done|].
    apply Hrest. cbn [fs]. rewrite lookup_insert_eq. eauto.
Qed.

(** ** Arithmetic *)

(** Floor division by two. *)
Lemma floordiv_2_bounds a : 2 * floordiv a 2 <= a <= 2 * floordiv a 2 + 1.
Proof. unfold floordiv. pose proof (Z.div_mod a 2). pose proof (Z.mod_pos_bound a 2). lia. Qed.

(** [0.4] is the double nearest to 4/10: it is off by less than half a
    unit in the last place. *)
Lemma float_0_4_nearest :
  float_0_4 = S754_finite false 7205759403792794 (-54) /\
  Z.abs (10 * 7205759403792794 - 4 * 2 ^ 54) * 2 < 10 /\
  2 ^ 52 <= 7205759403792794 < 2 ^ 53.
Proof. split; [done|]. split; [done|]. split; [discriminate | done]. Qed.

(** For every size up to 4096 the float computation [int(size * 0.4)]
    is the exact floor of four tenths of the size. *)
Lemma font_size_floor_upto_4096 :
  forallb (fun s => match int_mul_float s float_0_4 with
                    | Ok pt => pt =? (4 * s) `div` 10
                    | Raised _ => false
                    end)
          (map Z.of_nat (seq 0 4097)) = true.
Proof. vm_compute. reflexivity. Qed.

(** * The claims *)

(** C1: in every iteration the glyph is measured at the nominal origin,
    its width is right - left and its height is bottom - top of that
    box, and the text is drawn, and the canvas saved, with the origin
    ((size - width) // 2, (size - height) // 2): each coordinate is the
    floor of the exact half, and it is passed on unclamped, so it is
    negative whenever the glyph is larger than the canvas. *)
Theorem C1_draw_origin size w :
  exists f pre tl,
    let b := text_box env (0, 0) "B" f in
    let gw := bb_right b - bb_left b in
    let gh := bb_bottom b - bb_top b in
    let x := (size - gw) `div` 2 in
    let y := (size - gh) `div` 2 in
    new_calls (body env size) w =
      pre ++ CTextbbox (0, 0) "B" f :: CText (x, y) "B" "white" f ::
      CSave (icon_path size)
        (mkImage "RGB" (size, size) "#3b82f6" [mkTextOp (x, y) "B" "white" f]) :: tl /\
    (2 * x <= size - gw <= 2 * x + 1) /\
    (2 * y <= size - gh <= 2 * y + 1) /\
    (size < gw -> x < 0) /\
    (size < gh -> y < 0).
Proof.
  destruct (body_new_calls size w) as (tl & Hc & _).
  exists (chosen_font env size),
    (CImageNew "RGB" (size, size) "#3b82f6" :: font_calls env size), tl.
  cbn zeta. split; [|split; [|split; [|split]]].
  - rewrite Hc. unfold draw_calls. cbn. by assoc_right.
  - apply floordiv_2_bounds.
  - apply floordiv_2_bounds.
  - intros H. apply Z.div_lt_upper_bound; lia.
  - intros H. apply Z.div_lt_upper_bound; lia.
Qed.

(** C2: when the canvas is at least as wide and as high as the glyph,
    the drawn origin plus half the glyph size is within one pixel of
    half the canvas size, in exact arithmetic (stated doubled) and in
    floor arithmetic alike, and the origin is not negative. *)
Theorem C2_centring size w x y text fill f :
  CText (x, y) text fill f ∈ new_calls (body env size) w ->
  glyph_width env f <= size ->
  glyph_height env f <= size ->
  Z.abs (2 * x + glyph_width env f - size) <= 2 /\
  Z.abs (2 * y + glyph_height env f - size) <= 2 /\
  Z.abs (x + glyph_width env f `div` 2 - size `div` 2) <= 1 /\
  Z.abs (y + glyph_height env f `div` 2 - size `div` 2) <= 1 /\
  0 <= x /\ 0 <= y.
Proof.
  intros Hc Hw Hh.
  apply body_text_call in Hc as (Hxy & _ & _ & ->).
  unfold origin, position in Hxy. injection Hxy as -> ->.
  set (gw := glyph_width env (chosen_font env size)) in *.
  set (gh := glyph_height env (chosen_font env size)) in *.
  pose proof (floordiv_2_bounds (size - gw)).
  pose proof (floordiv_2_bounds (size - gh)).
  unfold floordiv in *.
  pose proof (Z.div_mod gw 2). pose proof (Z.mod_pos_bound gw 2).
  pose proof (Z.div_mod gh 2). pose proof (Z.mod_pos_bound gh 2).
  pose proof (Z.div_mod size 2). pose proof (Z.mod_pos_bound size 2).
  lia.
Qed.

(** C3: when the preferred font cannot be had, whatever was raised, the
    font step returns the built-in font and changes neither the file
    system nor the output; the iteration goes on to draw with that font
    and reaches the save, so nothing has been raised before it; and
    where the file can be written the iteration completes and leaves
    the encoded canvas under its name. *)
Theorem C3_font_fallback size w :
  preferred_font_fails env size ->
  (exists w1, font env size w = (Ok DefaultFont, w1) /\
              fs w1 = fs w /\ stdout w1 = stdout w /\
              CLoadDefault ∈ new_calls (font env size) w) /\
  (exists xy tl,
      new_calls (body env size) w =
      draw_calls env size ++
      CSave (icon_path size)
        (mkImage "RGB" (size, size) "#3b82f6" [mkTextOp xy "B" "white" DefaultFont])
      :: tl) /\
  CText (origin env size) "B" "white" DefaultFont ∈ new_calls (body env size) w /\
  (open_error env (fs w) (icon_path size) = None ->
   write_fault env (icon_path size) = None ->
   exists w', body env size w = (Ok tt, w') /\
              stdout w' = stdout w ++ [created_line size] /\
              exists img, fs w' !! icon_path size = Some (File (png_encode env img)) /\
                          im_size img = (size, size) /\
                          map to_font (im_texts img) = [DefaultFont]).
Proof.
  intros Hfail.
  assert (chosen_font env size = DefaultFont /\ CLoadDefault ∈ font_calls env size)
    as [Hf Hl].
  { unfold preferred_font_fails in Hfail. unfold chosen_font, font_calls.
    destruct (int_mul_float size float_0_4) as [pt|e].
    - destruct (truetype_fails env "arial.ttf" pt); [|done].
      split; [done|]. apply list_elem_of_further, list_elem_of_here.
    - split; [done | apply list_elem_of_here]. }
  split; [|split; [|split]].
  - exists (add_calls (font_calls env size) w).
    rewrite font_run, Hf. split; [done|]. split; [done|]. split; [done|].
    rewrite (new_calls_eq (font env size) w (font_calls env size)); [done|].
    by rewrite font_run.
  - destruct (body_new_calls size w) as (tl & Hc & _).
    exists (origin env size), tl. rewrite Hc. unfold icon. by rewrite Hf.
  - rewrite <- Hf. apply body_text_call_in.
  - intros Ho Hw. eexists. split; [by apply body_ok|].
    cbn [stdout fs]. split; [done|].
    exists (icon env size). rewrite lookup_insert_eq. split; [done|].
    unfold icon. cbn. by rewrite Hf.
Qed.

(** C4: when, after the sizes [pre] have completed, the iteration of
    the next size [s] raises, which it can only do in its save, the
    script ends with that exception in the world the failed save left:
    the sizes [post] after it are never started, the files of the sizes
    before it hold what was written for them, the output has gained the
    progress lines of [pre] and nothing else, and the completion line
    is not printed. *)
Theorem C4_write_failure_aborts w w1 w2 w3 pre s post e :
  sizes = pre ++ s :: post ->
  ensure_public env w = (Ok tt, w1) ->
  for_ pre (body env) w1 = (Ok tt, w2) ->
  body env s w2 = (Raised e, w3) ->
  main env w = (Raised e, w3) /\
  Image_save env (icon env s) (icon_path s) (add_calls (draw_calls env s) w2)
    = (Raised e, w3) /\
  stdout w3 = stdout w ++ map created_line pre /\
  (done_line ∉ map created_line pre) /\
  (CPrint done_line ∉ new_calls (main env) w) /\
  (forall p, p ∈ pre ->
             fs w3 !! icon_path p = fs w2 !! icon_path p /\
             fs w3 !! icon_path p = Some (File (png_encode env (icon env p)))) /\
  (forall q, q ∈ post ->
             fs w3 !! icon_path q = fs w !! icon_path q /\
             forall img, CSave (icon_path q) img ∉ new_calls (main env) w).
Proof.
  intros Hsz He Hpre Hb.
  pose proof sizes_NoDup as Hnd. rewrite Hsz in Hnd.
  apply NoDup_app in Hnd as (Hnd_pre & Hpre_tl & Hnd_tl).
  apply NoDup_cons in Hnd_tl as (Hs_post & Hnd_post).
  assert (main env w = (Raised e, w3)) as Hm.
  { rewrite main_run, He, Hsz, for_app, Hpre. cbn [for_]. unfold bind. by rewrite Hb. }
  pose proof (for_body_ok_inv _ _ _ Hpre) as Hw2.
  apply ensure_ok_inv in He as (_ & Hw1).
  apply body_raised_inv in Hb as (Hsave & Hout & Hcalls & Hother).
  assert (new_calls (main env) w =
          dir_calls (fs w) ++ concat (map (iter_calls env) pre) ++
          draw_calls env s ++ [CSave (icon_path s) (icon env s)]) as Hnew.
  { apply new_calls_eq. rewrite Hm. cbn [snd]. rewrite Hcalls, Hw2. cbn [calls].
    rewrite Hw1. cbn [calls]. by assoc_right. }
  split; [exact Hm|]. split; [exact Hsave|]. split; [|split; [|split; [|split]]].
  - rewrite Hout, Hw2. cbn [stdout]. by rewrite Hw1.
  - intros (p & Hp & _)%list_elem_of_In%in_map_iff.
    by apply created_line_not_done in Hp.
  - rewrite Hnew. rewrite !elem_of_app. intros [H|[H|[H|H]]].
    + unfold dir_calls in H. destruct (fs w !! "public");
        repeat (apply elem_of_cons in H as [H|H]; [done|]); by apply elem_of_nil in H.
    + apply list_elem_of_In, in_concat in H as (cs & Hcs & Hin).
      apply in_map_iff in Hcs as (p & <- & _). apply list_elem_of_In in Hin.
      unfold iter_calls in Hin. rewrite elem_of_app, !elem_of_cons, elem_of_nil in Hin.
      destruct Hin as [Hin|[Hin|[Hin|[]]]]; [|done|].
      * by apply (filter_nil_not_in is_print _ _ (draw_calls_filter_print p)) in Hin.
      * assert (created_line p = done_line) as Hx by congruence.
        by apply created_line_not_done in Hx.
    + by apply (filter_nil_not_in is_print _ _ (draw_calls_filter_print s)) in H.
    + by apply list_elem_of_singleton in H.
  - intros p Hp.
    assert (icon_path p ≠ icon_path s) as Hne.
    { intros Heq%icon_path_inj. subst p.
      apply (Hpre_tl s Hp). apply list_elem_of_here. }
    rewrite (Hother _ Hne). split; [done|].
    rewrite Hw2. cbn [fs]. by apply saved_lookup.
  - intros q Hq.
    assert (icon_path q ≠ icon_path s) as Hne.
    { intros Heq%icon_path_inj. by subst q. }
    split.
    + rewrite (Hother _ Hne), Hw2. cbn [fs]. rewrite saved_lookup_other.
      * rewrite Hw1. cbn [fs]. destruct (fs w !! "public"); [done|].
        apply lookup_insert_ne. symmetry. apply icon_path_public.
      * intros p Hp Heq%icon_path_inj. subst p.
        apply (Hpre_tl q Hp). by apply list_elem_of_further.
    + intros img. rewrite Hnew, !elem_of_app. intros [H|[H|[H|H]]].
      * unfold dir_calls in H. destruct (fs w !! "public");
          repeat (apply elem_of_cons in H as [H|H]; [done|]); by apply elem_of_nil in H.
      * apply save_in_loop_calls in H as (p & Hp & Heq%icon_path_inj & _). subst p.
        apply (Hpre_tl q Hp). by apply list_elem_of_further.
      * by apply (filter_nil_not_in is_save _ _ (draw_calls_filter_save s)) in H.
      * apply list_elem_of_singleton in H.
        assert (icon_path q = icon_path s) as Hx by congruence. done.
Qed.

(** C5: whatever the outcome of a run, its log holds exactly one
    existence check of [public] and at most one [makedirs], none of them
    per size; when the path exists the step returns normally and changes
    nothing; after a run that got past its directory step, the
    directory step of the next run returns normally; no run ever raises
    [FileExistsError]; and a run that follows a completed run on the
    same host completes as well and leaves the files as they were. *)
Theorem C5_directory_once w :
  List.filter is_dir_call (new_calls (main env) w) =
    CExists "public" ::
    match fs w !! "public" with Some _ => [] | None => [CMakedirs "public"] end /\
  (is_Some (fs w !! "public") ->
   ensure_public env w = (Ok tt, add_calls [CExists "public"] w)) /\
  (fst (ensure_public env w) = Ok tt ->
   fst (ensure_public env (snd (main env w))) = Ok tt) /\
  fst (main env w) ≠ Raised FileExistsError /\
  fst (main env (snd (main env w))) ≠ Raised FileExistsError /\
  (forall w1, main env w = (Ok tt, w1) ->
              exists w2, main env w1 = (Ok tt, w2) /\ fs w2 = fs w1).
Proof.
  split; [apply main_dir_calls|].
  split; [|split; [|split; [apply main_not_exists|split; [apply main_not_exists|]]]].
  - intros [n Hn]. rewrite ensure_run. by rewrite Hn.
  - intros He. destruct (main_keeps_public w He) as [n Hn].
    rewrite ensure_run. by rewrite Hn.
  - intros w1 Hm.
    pose proof (main_ok_inv _ _ Hm) as (Hp & Hw & Hw1).
    assert (fs w1 !! "public" = Some Dir) as Hpub.
    { rewrite Hw1. cbn [fs]. rewrite saved_lookup_other.
      - apply lookup_insert_eq.
      - intros s Hs. by apply icon_path_public. }
    assert (forall s, s ∈ sizes ->
              fs w1 !! icon_path s = Some (File (png_encode env (icon env s)))) as Hfiles.
    { intros s Hs. rewrite Hw1. cbn [fs]. apply saved_lookup; [apply sizes_NoDup | done]. }
    eexists. split.
    + apply main_ok; [by left|].
      intros s Hs. destruct (Hw s Hs) as (_ & ? & ?).
      split; [|done]. by rewrite (Hfiles s Hs).
    + cbn [fs]. rewrite (insert_id (fs w1) "public" Dir Hpub).
      unfold saved, sizes. cbn [foldl].
      rewrite (insert_id (fs w1) (icon_path 192)).
      * rewrite (insert_id (fs w1) (icon_path 512)); [done|].
        apply Hfiles. unfold sizes. apply list_elem_of_further, list_elem_of_here.
      * apply Hfiles. unfold sizes. apply list_elem_of_here.
Qed.

(** C6: a run that completes saves exactly two canvases, first under
    [public/icon-192x192.png] and then under [public/icon-512x512.png];
    each file holds the PNG encoding of an RGB canvas whose width and
    height are the size in its name; apart from the directory [public]
    no other path changes; the three lines are printed in order. *)
Theorem C6_two_icons w w' :
  main env w = (Ok tt, w') ->
  List.filter is_save (new_calls (main env) w) =
    [CSave "public/icon-192x192.png" (icon env 192);
     CSave "public/icon-512x512.png" (icon env 512)] /\
  fs w' !! "public/icon-192x192.png" = Some (File (png_encode env (icon env 192))) /\
  fs w' !! "public/icon-512x512.png" = Some (File (png_encode env (icon env 512))) /\
  (im_mode (icon env 192), im_size (icon env 192)) = ("RGB", (192, 192)) /\
  (im_mode (icon env 512), im_size (icon env 512)) = ("RGB", (512, 512)) /\
  fs w' !! "public" = Some Dir /\
  (forall p, p ≠ "public" -> p ≠ "public/icon-192x192.png" ->
             p ≠ "public/icon-512x512.png" -> fs w' !! p = fs w !! p) /\
  stdout w' = stdout w ++
    ["Created icon-192x192.png"; "Created icon-512x512.png"; "All icons generated!"].
Proof.
  intros Hm.
  pose proof (main_ok_inv _ _ Hm) as (_ & _ & Hw').
  assert (192 ∈ sizes) as H192 by (unfold sizes; apply list_elem_of_here).
  assert (512 ∈ sizes) as H512
    by (unfold sizes; apply list_elem_of_further, list_elem_of_here).
  split; [|split; [|split; [|split; [|split; [|split; [|split]]]]]].
  - rewrite (new_calls_eq (main env) w
               (dir_calls (fs w) ++ concat (map (iter_calls env) sizes) ++
                [CPrint done_line])) by (by rewrite Hm, Hw').
    unfold sizes. cbn [map concat].
    rewrite !List.filter_app, !iter_calls_filter_save.
    unfold dir_calls. by destruct (fs w !! "public").
  - rewrite Hw'. cbn [fs]. apply (saved_lookup sizes _ 192 sizes_NoDup H192).
  - rewrite Hw'. cbn [fs]. apply (saved_lookup sizes _ 512 sizes_NoDup H512).
  - reflexivity.
  - reflexivity.
  - rewrite Hw'. cbn [fs]. rewrite saved_lookup_other.
    + apply lookup_insert_eq.
    + intros s Hs. by apply icon_path_public.
  - intros p Hp H1 H2. rewrite Hw'. cbn [fs]. rewrite saved_lookup_other.
    + by apply lookup_insert_ne.
    + intros s Hs. unfold sizes in Hs.
      apply elem_of_cons in Hs as [->|Hs]; [by intros <-|].
      apply list_elem_of_singleton in Hs as ->. by intros <-.
  - rewrite Hw'. reflexivity.
Qed.

(** C7: for each of the two sizes the script asks for arial at
    [int(size * 0.4)] points, which is the floor of four tenths of the
    size: 76 points for 192 and 204 points for 512.  It is the only
    point size requested. *)
Theorem C7_font_point_size s w :
  s ∈ sizes ->
  exists pt,
    int_mul_float s float_0_4 = Ok pt /\
    pt = (4 * s) `div` 10 /\
    CTruetype "arial.ttf" pt ∈ new_calls (body env s) w /\
    (forall file pt', CTruetype file pt' ∈ new_calls (body env s) w ->
                      file = "arial.ttf" /\ pt' = pt) /\
    (s = 192 -> pt = 76) /\
    (s = 512 -> pt = 204).
Proof.
  intros Hs.
  assert ((s = 192 /\ int_mul_float s float_0_4 = Ok 76) \/
          (s = 512 /\ int_mul_float s float_0_4 = Ok 204)) as Hpt.
  { unfold sizes in Hs.
    apply elem_of_cons in Hs as [->|Hs]; [by left|].
    apply elem_of_cons in Hs as [->|Hs]; [by right|]. by apply elem_of_nil in Hs. }
  assert (exists pt, int_mul_float s float_0_4 = Ok pt /\ pt = (4 * s) `div` 10 /\
                     (s = 192 -> pt = 76) /\ (s = 512 -> pt = 204))
    as (pt & Hi & Hfl & H192 & H512).
  { destruct Hpt as [[-> H]|[-> H]]; eexists; (split; [exact H|]); done. }
  exists pt. split; [done|]. split; [done|].
  destruct (body_new_calls s w) as (tl & -> & Htl).
  unfold draw_calls. split; [|split; [|done]].
  - rewrite elem_of_app, !elem_of_cons, elem_of_app. left. right. left.
    unfold font_calls. rewrite Hi. apply list_elem_of_here.
  - intros file pt'.
    rewrite elem_of_app, !elem_of_cons, elem_of_app, !elem_of_cons, elem_of_nil.
    intros [[H|[H|[H|[H|[]]]]]|[H|H]]; try done.
    + apply font_calls_inv in H as [(pt0 & Hi0 & H)|H]; [|done].
      rewrite Hi in Hi0. by simplify_eq.
    + destruct Htl as [->| ->].
      * by apply elem_of_nil in H.
      * by apply list_elem_of_singleton in H.
Qed.

(** C8: on one host, two completing runs, from whatever worlds they
    start, save the same canvases under the same names and leave the
    same bytes in both icon files. *)
Theorem C8_deterministic w1 w1' w2 w2' :
  main env w1 = (Ok tt, w1') ->
  main env w2 = (Ok tt, w2') ->
  (forall s, s ∈ sizes ->
             fs w1' !! icon_path s = fs w2' !! icon_path s /\
             fs w1' !! icon_path s = Some (File (png_encode env (icon env s)))) /\
  List.filter is_save (new_calls (main env) w1) =
  List.filter is_save (new_calls (main env) w2).
Proof.
  intros H1 H2.
  pose proof (main_ok_inv _ _ H1) as (_ & _ & Hw1).
  pose proof (main_ok_inv _ _ H2) as (_ & _ & Hw2).
  split.
  - intros s Hs. rewrite Hw1, Hw2. cbn [fs].
    by rewrite !(saved_lookup sizes _ s sizes_NoDup Hs).
  - assert (forall w w', main env w = (Ok tt, w') ->
              List.filter is_save (new_calls (main env) w) =
              List.filter is_save (concat (map (iter_calls env) sizes))) as Hsaves.
    { intros w w' Hm. pose proof (main_ok_inv _ _ Hm) as (_ & _ & Hw).
      rewrite (new_calls_eq (main env) w
                 (dir_calls (fs w) ++ concat (map (iter_calls env) sizes) ++
                  [CPrint done_line])) by (by rewrite Hm, Hw).
      rewrite !List.filter_app. cbn [List.filter is_save]. rewrite app_nil_r.
      unfold dir_calls. by destruct (fs w !! "public"). }
    by rewrite (Hsaves _ _ H1), (Hsaves _ _ H2).
Qed.

(** C9: the text is drawn at the origin computed from the glyph size
    alone, without subtracting the left and top of the measured box,
    and that one text, at that origin, is what the canvas handed to
    [save] holds.  The box the glyph occupies on the saved canvas is
    therefore the centred box moved by exactly (left, top); it is the
    centred box only when both offsets are zero. *)
Theorem C9_offset_not_compensated size w x y text fill f :
  CText (x, y) text fill f ∈ new_calls (body env size) w ->
  let b := text_box env (0, 0) "B" f in
  let gw := bb_right b - bb_left b in
  let gh := bb_bottom b - bb_top b in
  let cx := (size - gw) `div` 2 in
  let cy := (size - gh) `div` 2 in
  let centred := mkBBox cx cy (cx + gw) (cy + gh) in
  let drawn := text_box env (x, y) text f in
  (x, y) = (cx, cy) /\
  (exists img,
      CSave (icon_path size) img ∈ new_calls (body env size) w /\
      (forall path' img',
          CSave path' img' ∈ new_calls (body env size) w ->
          path' = icon_path size /\ img' = img) /\
      im_size img = (size, size) /\
      im_texts img = [mkTextOp (x, y) text fill f] /\
      canvas_boxes env img = [drawn]) /\
  bb_left drawn - bb_left centred = bb_left b /\
  bb_top drawn - bb_top centred = bb_top b /\
  bb_right drawn - bb_right centred = bb_left b /\
  bb_bottom drawn - bb_bottom centred = bb_top b /\
  (drawn = centred <-> bb_left b = 0 /\ bb_top b = 0).
Proof.
  intros Hc.
  apply body_text_call in Hc as (Hxy & -> & -> & ->).
  assert (exists img,
             CSave (icon_path size) img ∈ new_calls (body env size) w /\
             (forall path' img',
                 CSave path' img' ∈ new_calls (body env size) w ->
                 path' = icon_path size /\ img' = img) /\
             im_size img = (size, size) /\
             im_texts img = [mkTextOp (x, y) "B" "white" (chosen_font env size)] /\
             canvas_boxes env img =
               [text_box env (x, y) "B" (chosen_font env size)]) as Himg.
  { exists (icon env size). split; [apply body_save_call_in|].
    split; [intros path' img'; apply body_save_call|].
    unfold canvas_boxes, icon. cbn [im_size im_texts map to_origin to_text to_font].
    by rewrite <- Hxy. }
  unfold origin, position, floordiv, glyph_width, glyph_height in Hxy.
  injection Hxy as -> ->.
  revert Himg. unfold text_box.
  destruct (font_bbox env (chosen_font env size) "B") as [l t r b].
  cbn -[Z.div Z.add Z.sub].
  set (cx := (size - (0 + r - (0 + l))) `div` 2).
  set (cy := (size - (0 + b - (0 + t))) `div` 2).
  replace ((size - (r - l)) `div` 2) with cx by (unfold cx; f_equal; lia).
  replace ((size - (b - t)) `div` 2) with cy by (unfold cy; f_equal; lia).
  intros Himg.
  split; [done|]. split; [exact Himg|].
  split; [lia|]. split; [lia|]. split; [lia|]. split; [lia|].
  split.
  - intros [= H1 H2 _ _]. lia.
  - intros [H1 H2]. f_equal; lia.
Qed.


End Properties.

(** * Further properties of the script *)

Section Further.

Variable env : Env.

(** ** The directory step fails *)

(** X1: when [public] is absent and cannot be created, the run ends in
    the [makedirs] call with [PermissionError]: no canvas is made, no
    font is loaded, nothing is saved or printed, and the file system is
    as it was. *)
Theorem X1_makedirs_failure_is_fatal w :
  fs w !! "public" = None ->
  denied env "public" = true ->
  main env w = (Raised PermissionError,
                add_calls [CExists "public"; CMakedirs "public"] w) /\
  List.filter is_save (new_calls (main env) w) = [] /\
  (forall mode size color, CImageNew mode size color ∉ new_calls (main env) w).
Proof.
  intros Hp Hd.
  assert (main env w = (Raised PermissionError,
                        add_calls [CExists "public"; CMakedirs "public"] w)) as Hm.
  { rewrite main_run, ensure_run. by rewrite Hp, Hd. }
  assert (new_calls (main env) w = [CExists "public"; CMakedirs "public"]) as Hc.
  { apply new_calls_eq. by rewrite Hm. }
  split; [exact Hm|]. rewrite Hc. split; [done|].
  intros mode size color [H|[H|H]%elem_of_cons]%elem_of_cons; try done.
  by apply elem_of_nil in H.
Qed.

(** ** When the run completes *)

(** X2: the run completes exactly when [public] is a directory, or is
    absent and can be created, and for each of the two sizes the icon
    path is not a directory, may be opened for writing and the write
    does not fail. *)
Theorem X2_completes_iff w :
  fst (main env w) = Ok tt <->
  (fs w !! "public" = Some Dir \/
   (fs w !! "public" = None /\ denied env "public" = false)) /\
  (forall s, s ∈ sizes ->
             fs w !! icon_path s ≠ Some Dir /\
             denied env (icon_path s) = false /\
             write_fault env (icon_path s) = None).
Proof.
  split.
  - intros H. destruct (main env w) as [r w'] eqn:Hm. cbn [fst] in H. subst r.
    apply main_ok_inv in Hm as (Hp & Hw & _). split; [exact Hp | exact Hw].
  - intros [Hp Hw]. by rewrite (main_ok env w Hp Hw).
Qed.

(** ** The preferred font *)

(** X5: when arial loads at the computed point size, that font is the
    one measured and drawn with, at that size, and the built-in font is
    never loaded. *)
Theorem X5_preferred_font_used size w pt :
  int_mul_float size float_0_4 = Ok pt ->
  truetype_fails env "arial.ttf" pt = None ->
  font env size w =
    (Ok (FreeTypeFont "arial.ttf" pt), add_calls [CTruetype "arial.ttf" pt] w) /\
  (CLoadDefault ∉ new_calls (body env size) w) /\
  (forall xy text fill f,
      CText xy text fill f ∈ new_calls (body env size) w ->
      f = FreeTypeFont "arial.ttf" pt) /\
  (forall xy text f,
      CTextbbox xy text f ∈ new_calls (body env size) w ->
      f = FreeTypeFont "arial.ttf" pt /\ xy = (0, 0)).
Proof.
  intros Hi Ht.
  assert (chosen_font env size = FreeTypeFont "arial.ttf" pt) as Hf
    by (unfold chosen_font; by rewrite Hi, Ht).
  assert (font_calls env size = [CTruetype "arial.ttf" pt]) as Hl
    by (unfold font_calls; by rewrite Hi, Ht).
  split; [by rewrite font_run, Hf, Hl|].
  destruct (body_new_calls env size w) as (tl & Hc & Htl).
  rewrite Hc. unfold draw_calls. rewrite Hl, Hf.
  split; [|split].
  - rewrite elem_of_app, !elem_of_cons, elem_of_app, !elem_of_cons, !elem_of_nil.
    intros [[H|[[H|[]]|[H|[H|[]]]]]|[H|H]]; try done.
    destruct Htl as [->| ->];
      [by apply elem_of_nil in H | by apply list_elem_of_singleton in H].
  - intros xy text fill f.
    rewrite elem_of_app, !elem_of_cons, elem_of_app, !elem_of_cons, !elem_of_nil.
    intros [[H|[[H|[]]|[H|[H|[]]]]]|[H|H]]; try done.
    + congruence.
    + destruct Htl as [->| ->];
        [by apply elem_of_nil in H | by apply list_elem_of_singleton in H].
  - intros xy text f.
    rewrite elem_of_app, !elem_of_cons, elem_of_app, !elem_of_cons, !elem_of_nil.
    intros [[H|[[H|[]]|[H|[H|[]]]]]|[H|H]]; try done.
    + split; congruence.
    + destruct Htl as [->| ->];
        [by apply elem_of_nil in H | by apply list_elem_of_singleton in H].
Qed.

(** ** How a run can end *)

Lemma sizes_split pre s post :
  sizes = pre ++ s :: post ->
  (pre = [] /\ s = 192 /\ post = [512]) \/ (pre = [192] /\ s = 512 /\ post = []).
Proof.
  unfold sizes. destruct pre as [|a [|b pre]]; cbn; intros H.
  - left. by simplify_eq.
  - right. by simplify_eq.
  - exfalso. injection H as _ _ H. by destruct pre.
Qed.

(** X4: whatever its outcome, a run adds to the output nothing, or the
    first progress line, or both progress lines and the completion
    line; the completion line is there exactly when the run
    completed. *)
Theorem X4_output_lines w :
  exists lines,
    stdout (snd (main env w)) = stdout w ++ lines /\
    (lines = [] \/ lines = ["Created icon-192x192.png"] \/
     lines = ["Created icon-192x192.png"; "Created icon-512x512.png";
              "All icons generated!"]) /\
    (fst (main env w) = Ok tt <->
     lines = ["Created icon-192x192.png"; "Created icon-512x512.png";
              "All icons generated!"]).
Proof.
  destruct (main env w) as [[[]|e] w'] eqn:Hm.
  - apply main_ok_inv in Hm as (_ & _ & ->).
    eexists. split; [reflexivity|]. split; [right; right; reflexivity|].
    split; [reflexivity | done].
  - assert (exists lines, stdout w' = stdout w ++ lines /\
              (lines = [] \/ lines = ["Created icon-192x192.png"]))
      as (lines & Hout & Hl).
    { rewrite main_run, ensure_run in Hm.
      assert (forall w1, stdout w1 = stdout w ->
                match for_ sizes (body env) w1 with
                | (Ok _, w2) => print done_line w2
                | (Raised e, w2) => (Raised e, w2)
                end = (Raised e, w') ->
                exists lines, stdout w' = stdout w ++ lines /\
                  (lines = [] \/ lines = ["Created icon-192x192.png"])) as Hloop.
      { intros w1 H1 H.
        destruct (for_ sizes (body env) w1) as [[[]|e1] w2] eqn:Hf; [done|].
        injection H as -> ->.
        apply for_body_raised_inv in Hf as (pre & s & post & w3 & Hsz & Hpre & Hb).
        apply for_body_ok_inv in Hpre as ->.
        apply body_raised_inv in Hb as (_ & -> & _). cbn [stdout]. rewrite H1.
        exists (map created_line pre). split; [done|].
        destruct (sizes_split _ _ _ Hsz) as [(-> & _)|(-> & _)]; [by left | by right]. }
      destruct (fs w !! "public").
      - eapply Hloop; [|exact Hm]. done.
      - destruct (denied env "public").
        + injection Hm as _ <-. exists []. cbn. rewrite app_nil_r. split; [done | by left].
        + eapply Hloop; [|exact Hm]. done. }
    exists lines. split; [exact Hout|]. split; [tauto|].
    cbn [fst]. split; [done|]. by destruct Hl as [->| ->].
Qed.

(** ** What a run leaves alone *)

(** A file that opens for writing is not a directory. *)
Lemma open_ok_not_dir f path :
  open_error env f path = None -> f !! path ≠ Some Dir.
Proof.
  unfold open_error. intros H Hd. rewrite Hd in H.
  by destruct (dirname path) as [d|]; [destruct (f !! d) as [[|?]|]|].
Qed.

(** Directories stay, whatever a save does. *)
Lemma save_keeps_dirs img path w p :
  fs w !! p = Some Dir -> fs (snd (Image_save env img path w)) !! p = Some Dir.
Proof.
  intros Hd. unfold Image_save. cbn [fs log_call].
  destruct (open_error env (fs w) path) eqn:Ho; [done|].
  assert (p ≠ path) as Hne.
  { intros ->. by apply open_ok_not_dir in Ho. }
  destruct (write_fault env path).
  - destruct (fs w !! path); cbn; [by rewrite lookup_insert_ne | done].
  - cbn. by rewrite lookup_insert_ne.
Qed.

Lemma body_fs size w :
  fs (snd (body env size w)) =
  fs (snd (Image_save env (icon env size) (icon_path size)
             (add_calls (draw_calls env size) w))).
Proof.
  rewrite body_run. unfold bind.
  by destruct (Image_save _ _ _ _) as [[[]|e] w1].
Qed.

Lemma loop_keeps_dirs l w p :
  fs w !! p = Some Dir -> fs (snd (for_ l (body env) w)) !! p = Some Dir.
Proof.
  revert w. induction l as [|s l IH]; intros w Hd; [done|].
  cbn [for_]. unfold bind.
  pose proof (body_fs s w) as Hb.
  pose proof (save_keeps_dirs (icon env s) (icon_path s)
                (add_calls (draw_calls env s) w) p Hd) as Hs.
  rewrite <- Hb in Hs.
  destruct (body env s w) as [[[]|e] w1]; cbn [snd] in Hs; [by apply IH | done].
Qed.

Lemma loop_other l w p :
  (forall s, s ∈ l -> p ≠ icon_path s) ->
  fs (snd (for_ l (body env) w)) !! p = fs w !! p.
Proof.
  revert w. induction l as [|s l IH]; intros w Hp; [done|].
  cbn [for_]. unfold bind.
  assert (p ≠ icon_path s) as Hne by (apply Hp, list_elem_of_here).
  pose proof (body_fs s w) as Hb.
  pose proof (save_other env (icon env s) (icon_path s)
                (add_calls (draw_calls env s) w) p Hne) as Hs.
  rewrite <- Hb in Hs. cbn [fs add_calls] in Hs.
  destruct (body env s w) as [[[]|e] w1]; cbn [snd] in Hs |- *; [|done].
  rewrite IH; [done|]. intros s' Hs'. by apply Hp, list_elem_of_further.
Qed.

Lemma main_fs w :
  fs (snd (main env w)) =
  fs (snd (for_ sizes (body env) (snd (ensure_public env w)))) \/
  (fst (ensure_public env w) ≠ Ok tt /\ fs (snd (main env w)) = fs w).
Proof.
  rewrite main_run, ensure_run.
  destruct (fs w !! "public").
  - left. cbn [snd]. by destruct (for_ sizes (body env) _) as [[[]|e] w2].
  - destruct (denied env "public"); [by right|].
    left. cbn [snd]. by destruct (for_ sizes (body env) _) as [[[]|e] w2].
Qed.

(** X7: whatever its outcome, a run changes no path other than
    [public] and the two icon paths. *)
Theorem X7_other_paths_untouched w p :
  p ≠ "public" ->
  (forall s, s ∈ sizes -> p ≠ icon_path s) ->
  fs (snd (main env w)) !! p = fs w !! p.
Proof.
  intros Hp Hs. destruct (main_fs w) as [->|[_ ->]]; [|done].
  rewrite loop_other by done. rewrite ensure_run.
  destruct (fs w !! "public"); [done|].
  destruct (denied env "public"); [done|].
  cbn [snd fs]. by rewrite lookup_insert_ne.
Qed.

(** X10: whatever its outcome, a run leaves every directory a
    directory: it neither removes one nor writes a file over one. *)
Theorem X10_directories_kept w p :
  fs w !! p = Some Dir ->
  fs (snd (main env w)) !! p = Some Dir.
Proof.
  intros Hd. destruct (main_fs w) as [->|[_ ->]]; [|done].
  apply loop_keeps_dirs. rewrite ensure_run.
  destruct (fs w !! "public") eqn:Hpub; [done|].
  destruct (denied env "public"); [done|].
  cbn [snd fs]. rewrite lookup_insert_ne; [done|]. intros <-. congruence.
Qed.

End Further.

(** ** The loop over any sizes *)

Section AnySizes.

Variable env : Env.

(** A size that occurs more than once is written more than once, each
    time with the same bytes. *)
Lemma saved_lookup_any l f s :
  s ∈ l ->
  saved env l f !! icon_path s = Some (File (png_encode env (icon env s))).
Proof.
  revert f. induction l as [|a l IH]; intros f Hs.
  - by apply elem_of_nil in Hs.
  - change (saved env (a :: l) f) with
      (saved env l (<[icon_path a := File (png_encode env (icon env a))]> f)).
    destruct (decide (s ∈ l)) as [Hin|Hnin]; [by apply IH|].
    apply elem_of_cons in Hs as [->|Hs]; [|done].
    rewrite saved_lookup_other.
    + apply lookup_insert_eq.
    + intros s Hs Heq. apply icon_path_inj in Heq. by subst.
Qed.

Lemma loop_calls_filter_save l :
  List.filter is_save (concat (map (iter_calls env) l)) =
  map (fun s => CSave (icon_path s) (icon env s)) l.
Proof.
  induction l as [|a l IH]; [done|].
  cbn [map concat]. by rewrite List.filter_app, iter_calls_filter_save, IH.
Qed.

(** X9: for any list of sizes, a loop that completes has printed one
    progress line per size, in order, and saved one canvas per size, in
    order; afterwards the file of every size in the list holds the
    encoding of the canvas of that size, also when the size is
    repeated, and the paths of no size in the list are as before. *)
Theorem X9_loop_any_sizes l w w' :
  for_ l (body env) w = (Ok tt, w') ->
  stdout w' = stdout w ++ map created_line l /\
  List.filter is_save (new_calls (for_ l (body env)) w) =
    map (fun s => CSave (icon_path s) (icon env s)) l /\
  (forall s, s ∈ l ->
             fs w' !! icon_path s = Some (File (png_encode env (icon env s))) /\
             im_size (icon env s) = (s, s)) /\
  (forall p, (forall s, s ∈ l -> p ≠ icon_path s) -> fs w' !! p = fs w !! p).
Proof.
  intros H. pose proof (for_body_ok_inv env _ _ _ H) as Hw'.
  split; [by rewrite Hw'|]. split; [|split].
  - rewrite (new_calls_eq (for_ l (body env)) w (concat (map (iter_calls env) l)))
      by (by rewrite H, Hw').
    apply loop_calls_filter_save.
  - intros s Hs. split; [|done]. rewrite Hw'. cbn [fs]. by apply saved_lookup_any.
  - intros p Hp. rewrite Hw'. cbn [fs]. apply saved_lookup_other.
    intros s Hs Heq. by apply (Hp s Hs).
Qed.

End AnySizes.

(** ** Which exception a font load raises does not matter *)

Section TwoHosts.

Variables e1 e2 : Env.
Hypothesis Hsame : same_but_font_error e1 e2.

Lemma same_chosen_font size : chosen_font e1 size = chosen_font e2 size.
Proof.
  destruct Hsame as (Ht & _). unfold chosen_font.
  destruct (int_mul_float size float_0_4) as [pt|e]; [|done].
  specialize (Ht "arial.ttf" pt).
  destruct (truetype_fails e1 "arial.ttf" pt), (truetype_fails e2 "arial.ttf" pt);
    try done; destruct Ht as [Ha Hb]; by (discriminate Ha || discriminate Hb).
Qed.

Lemma same_font_calls size : font_calls e1 size = font_calls e2 size.
Proof.
  destruct Hsame as (Ht & _). unfold font_calls.
  destruct (int_mul_float size float_0_4) as [pt|e]; [|done].
  specialize (Ht "arial.ttf" pt).
  destruct (truetype_fails e1 "arial.ttf" pt), (truetype_fails e2 "arial.ttf" pt);
    try done; destruct Ht as [Ha Hb]; by (discriminate Ha || discriminate Hb).
Qed.

Lemma same_origin size : origin e1 size = origin e2 size.
Proof.
  destruct Hsame as (_ & Hb & _).
  unfold origin, glyph_width, glyph_height.
  by rewrite same_chosen_font, !Hb.
Qed.

Lemma same_icon size : icon e1 size = icon e2 size.
Proof. unfold icon. by rewrite same_origin, same_chosen_font. Qed.

Lemma same_draw_calls size : draw_calls e1 size = draw_calls e2 size.
Proof. unfold draw_calls. by rewrite same_font_calls, same_origin, same_chosen_font. Qed.

Lemma same_save img path w : Image_save e1 img path w = Image_save e2 img path w.
Proof.
  destruct Hsame as (_ & _ & Hp & Hd & Hw).
  unfold Image_save, open_error. by rewrite Hp, Hd, Hw.
Qed.

Lemma same_body size w : body e1 size w = body e2 size w.
Proof.
  rewrite !body_run. unfold bind.
  by rewrite same_icon, same_draw_calls, same_save.
Qed.

Lemma same_loop l w : for_ l (body e1) w = for_ l (body e2) w.
Proof.
  revert w. induction l as [|s l IH]; intros w; [done|].
  cbn [for_]. unfold bind. rewrite same_body.
  by destruct (body e2 s w) as [[[]|e] w1].
Qed.

(** X8: on two hosts that differ only in which exception a font load
    raises when it raises, the script behaves alike: same outcome, same
    files, same output, same library calls.  What was raised inside
    the [try] is not observable. *)
Theorem X8_font_error_unobservable w :
  main e1 w = main e2 w /\
  (forall size, font e1 size w = font e2 size w).
Proof.
  split.
  - rewrite !main_run, !ensure_run.
    destruct Hsame as (_ & _ & _ & Hd & _). rewrite Hd.
    destruct (fs w !! "public"); [by rewrite same_loop|].
    destruct (denied e2 "public"); [done | by rewrite same_loop].
  - intros size. by rewrite !font_run, same_chosen_font, same_font_calls.
Qed.

End TwoHosts.

(** ** The point size beyond the two sizes *)

Lemma zrange_In lo n s : lo <= s < lo + Z.of_nat n -> In s (zrange lo n).
Proof.
  revert lo. induction n as [|n IH]; intros lo Hs; [lia|].
  cbn [zrange]. destruct (decide (s = lo)) as [->|Hne]; [by left|].
  right. apply IH. lia.
Qed.

Lemma point_size_checked :
  forallb point_size_truncates (symmetric_range 16384) = true.
Proof. vm_compute. reflexivity. Qed.

(** X6: for every size from -16384 to 16384 the float computation
    [int(size * 0.4)] returns four tenths of the size truncated towards
    zero, without raising: binary64 rounding never moves the product
    across an integer.  For sizes that are not negative this is the
    floor. *)
Theorem X6_point_size_truncates s :
  -16384 <= s <= 16384 ->
  int_mul_float s float_0_4 = Ok (Z.quot (4 * s) 10) /\
  (0 <= s -> int_mul_float s float_0_4 = Ok ((4 * s) `div` 10)) /\
  (s < 0 -> int_mul_float s float_0_4 = Ok (- ((4 * - s) `div` 10))).
Proof.
  intros Hs.
  assert (int_mul_float s float_0_4 = Ok (Z.quot (4 * s) 10)) as H.
  { pose proof point_size_checked as Hc.
    rewrite forallb_forall in Hc.
    assert (In s (symmetric_range 16384)) as Hin
      by (apply zrange_In; rewrite Z2Nat.id; lia).
    specialize (Hc s Hin).
    unfold point_size_truncates in Hc.
    destruct (int_mul_float s float_0_4) as [pt|e]; [|done].
    by apply Z.eqb_eq in Hc as ->. }
  split; [exact H|]. split.
  - intros H0. by rewrite H, Z.quot_div_nonneg by lia.
  - intros H0. rewrite H. f_equal.
    replace (4 * s) with (- (4 * - s)) by lia.
    rewrite Z.quot_opp_l by lia. by rewrite Z.quot_div_nonneg by lia.
Qed.

(** * Concrete runs

    The script on the sample hosts: one full log, and each theorem that
    has hypotheses applied to a run that satisfies them. *)

(** On a host without arial, from an empty working directory. *)
Example run_without_arial :
  let r := main host_without_arial empty_world in
  fst r = Ok tt /\
  stdout (snd r) =
    ["Created icon-192x192.png"; "Created icon-512x512.png"; "All icons generated!"] /\
  fs (snd r) =
    <["public/icon-512x512.png" := File png_signature]>
      (<["public/icon-192x192.png" := File png_signature]>
         (<["public" := Dir]> ∅)) /\
  calls (snd r) =
    [CExists "public"; CMakedirs "public";
     CImageNew "RGB" (192, 192) "#3b82f6"; CTruetype "arial.ttf" 76; CLoadDefault;
     CTextbbox (0, 0) "B" DefaultFont; CText (93, 92) "B" "white" DefaultFont;
     CSave "public/icon-192x192.png"
       (mkImage "RGB" (192, 192) "#3b82f6"
          [mkTextOp (93, 92) "B" "white" DefaultFont]);
     CPrint "Created icon-192x192.png";
     CImageNew "RGB" (512, 512) "#3b82f6"; CTruetype "arial.ttf" 204; CLoadDefault;
     CTextbbox (0, 0) "B" DefaultFont; CText (253, 252) "B" "white" DefaultFont;
     CSave "public/icon-512x512.png"
       (mkImage "RGB" (512, 512) "#3b82f6"
          [mkTextOp (253, 252) "B" "white" DefaultFont]);
     CPrint "Created icon-512x512.png"; CPrint "All icons generated!"].
Proof.
  cbv zeta. repeat split; by vm_compute.
Qed.

(** The origin is negative, and still passed to [draw.text], when the
    glyph does not fit. *)
Example C1_oversized_glyph :
  CText (-254, -354) "B" "white" DefaultFont
    ∈ new_calls (body host_huge_glyph 192) empty_world.
Proof. find_call. Qed.

(** The 192 icon on a host without arial: the built-in glyph, 6 by 8
    pixels, is drawn at (93, 92). *)
Lemma C2_centring_witness :
  Z.abs (2 * 93 + 6 - 192) <= 2 /\ Z.abs (2 * 92 + 8 - 192) <= 2 /\
  Z.abs (93 + 6 `div` 2 - 192 `div` 2) <= 1 /\
  Z.abs (92 + 8 `div` 2 - 192 `div` 2) <= 1 /\ 0 <= 93 /\ 0 <= 92.
Proof.
  apply (C2_centring host_without_arial 192 empty_world 93 92 "B" "white" DefaultFont).
  - find_call.
  - vm_compute. discriminate.
  - vm_compute. discriminate.
Defined.

(** Arial is missing and [public] is there: the 512 icon is drawn with
    the built-in font and its iteration completes. *)
Lemma C3_font_fallback_witness :
  fst (body host_without_arial 512 (mkWorld {["public" := Dir]} [] [])) = Ok tt /\
  CText (253, 252) "B" "white" DefaultFont
    ∈ new_calls (body host_without_arial 512) (mkWorld {["public" := Dir]} [] []).
Proof.
  assert (preferred_font_fails host_without_arial 512) as H by (vm_compute; discriminate).
  destruct (C3_font_fallback host_without_arial 512 (mkWorld {["public" := Dir]} [] []) H)
    as (_ & _ & Hc & Hok).
  split; [|exact Hc].
  destruct Hok as (w' & Hb & _); [reflexivity | reflexivity |].
  rewrite Hb. reflexivity.
Defined.

(** The disk fills up while the 512 icon is written: the run ends with
    the error, the 192 icon is in place, one progress line is out. *)
Lemma C4_write_failure_aborts_witness :
  fst (main host_disk_full empty_world) = Raised (OSError "No space left on device") /\
  stdout (snd (main host_disk_full empty_world)) = ["Created icon-192x192.png"] /\
  fs (snd (main host_disk_full empty_world)) !! "public/icon-192x192.png" =
    Some (File png_signature) /\
  fs (snd (main host_disk_full empty_world)) !! "public/icon-512x512.png" = None.
Proof.
  pose proof (C4_write_failure_aborts host_disk_full empty_world
                (snd (ensure_public host_disk_full empty_world))
                (snd (for_ [192] (body host_disk_full)
                        (snd (ensure_public host_disk_full empty_world))))
                (snd (main host_disk_full empty_world))
                [192] 512 [] (OSError "No space left on device")
                eq_refl
                ltac:(vm_compute; reflexivity)
                ltac:(vm_compute; reflexivity)
                ltac:(vm_compute; reflexivity)) as (Hm & _ & Hout & _).
  split; [by rewrite Hm|]. split; [exact Hout|].
  split; vm_compute; reflexivity.
Defined.

(** A completed run from an empty working directory. *)
Lemma C6_two_icons_witness :
  fs (snd (main host_without_arial empty_world)) !! "public/icon-512x512.png"
    = Some (File (png_encode host_without_arial (icon host_without_arial 512))) /\
  stdout (snd (main host_without_arial empty_world)) =
    stdout empty_world ++
    ["Created icon-192x192.png"; "Created icon-512x512.png"; "All icons generated!"].
Proof.
  assert (main host_without_arial empty_world =
          (Ok tt, snd (main host_without_arial empty_world))) as Hm
    by (vm_compute; reflexivity).
  pose proof (C6_two_icons host_without_arial empty_world _ Hm) as H.
  split; [exact (proj1 (proj2 (proj2 H))) | apply H].
Defined.

(** The 192 icon on a host with arial: one load, at 76 points. *)
Lemma C7_font_point_size_witness :
  exists pt,
    int_mul_float 192 float_0_4 = Ok pt /\
    pt = (4 * 192) `div` 10 /\
    CTruetype "arial.ttf" pt ∈ new_calls (body host_with_arial 192) empty_world /\
    (forall file pt',
        CTruetype file pt' ∈ new_calls (body host_with_arial 192) empty_world ->
        file = "arial.ttf" /\ pt' = pt) /\
    (192 = 192 -> pt = 76) /\
    (192 = 512 -> pt = 204).
Proof.
  apply (C7_font_point_size host_with_arial 192 empty_world).
  unfold sizes. apply list_elem_of_here.
Defined.

(** The second run starts from the world the first one left; its output
    files are the ones the first run wrote. *)
Lemma C8_deterministic_witness :
  fs (snd (main host_with_arial empty_world)) !! icon_path 512 =
  fs (snd (main host_with_arial (snd (main host_with_arial empty_world))))
    !! icon_path 512.
Proof.
  assert (main host_with_arial empty_world =
          (Ok tt, snd (main host_with_arial empty_world))) as H1
    by (vm_compute; reflexivity).
  assert (main host_with_arial (snd (main host_with_arial empty_world)) =
          (Ok tt, snd (main host_with_arial (snd (main host_with_arial empty_world)))))
    as H2 by (vm_compute; reflexivity).
  assert (512 ∈ sizes) as Hs
    by (unfold sizes; apply list_elem_of_further, list_elem_of_here).
  exact (proj1 (proj1 (C8_deterministic host_with_arial _ _ _ _ H1 H2) 512 Hs)).
Defined.

(** The built-in glyph has top offset 3: drawn at (93, 92) it occupies
    rows 95 to 103 of the saved canvas, where the centred box has rows
    92 to 100. *)
Lemma C9_offset_not_compensated_witness :
  (93, 92) = (93, 92) /\
  (exists img,
      CSave (icon_path 192) img ∈ new_calls (body host_without_arial 192) empty_world /\
      (forall path' img',
          CSave path' img' ∈ new_calls (body host_without_arial 192) empty_world ->
          path' = icon_path 192 /\ img' = img) /\
      im_size img = (192, 192) /\
      im_texts img = [mkTextOp (93, 92) "B" "white" DefaultFont] /\
      canvas_boxes host_without_arial img = [mkBBox 93 95 99 103]) /\
  93 + 0 - 93 = 0 /\ 92 + 3 - 92 = 3 /\ 93 + 6 - (93 + 6) = 0 /\
  92 + 11 - (92 + 8) = 3 /\
  (mkBBox 93 95 99 103 = mkBBox 93 92 99 100 <-> 0 = 0 /\ 3 = 0).
Proof.
  apply (C9_offset_not_compensated host_without_arial 192 empty_world
           93 92 "B" "white" DefaultFont).
  find_call.
Defined.


(** ** Runs for the further properties *)

(** A read-only working directory without [public]. *)
Lemma X1_makedirs_failure_is_fatal_witness :
  main host_read_only empty_world =
  (Raised PermissionError,
   add_calls [CExists "public"; CMakedirs "public"] empty_world).
Proof.
  exact (proj1 (X1_makedirs_failure_is_fatal host_read_only empty_world
                  ltac:(reflexivity) ltac:(reflexivity))).
Defined.

(** Arial loads at 76 points for the 192 icon. *)
Lemma X5_preferred_font_used_witness :
  font host_with_arial 192 empty_world =
  (Ok (FreeTypeFont "arial.ttf" 76), add_calls [CTruetype "arial.ttf" 76] empty_world).
Proof.
  exact (proj1 (X5_preferred_font_used host_with_arial 192 empty_world 76
                  ltac:(vm_compute; reflexivity) ltac:(reflexivity))).
Defined.

(** A size that the script does not use, and its negative. *)
Lemma X6_point_size_truncates_witness :
  int_mul_float 1000 float_0_4 = Ok (Z.quot (4 * 1000) 10).
Proof.
  exact (proj1 (X6_point_size_truncates 1000 ltac:(lia))).
Defined.

(** A stray file next to [public] survives a run that fails. *)
Lemma X7_other_paths_untouched_witness :
  fs (snd (main host_with_arial world_cluttered)) !! "notes.txt" =
  fs world_cluttered !! "notes.txt".
Proof.
  apply (X7_other_paths_untouched host_with_arial world_cluttered "notes.txt").
  - discriminate.
  - intros s [->| ->]%sizes_inv; discriminate.
Defined.

(** Two hosts without arial: one reports a missing resource, on the
    other the load is interrupted. *)
Lemma X8_font_error_unobservable_witness :
  main host_without_arial empty_world = main host_interrupted empty_world.
Proof.
  apply (X8_font_error_unobservable host_without_arial host_interrupted).
  unfold same_but_font_error, host_without_arial, host_interrupted. cbn.
  repeat split; intros; done.
Defined.

(** Three sizes, one of them twice, none of them one of the script's. *)
Lemma X9_loop_any_sizes_witness :
  stdout (snd (for_ [64; 64; 32] (body host_without_arial) world_public_dir)) =
  stdout world_public_dir ++ map created_line [64; 64; 32].
Proof.
  assert (for_ [64; 64; 32] (body host_without_arial) world_public_dir =
          (Ok tt, snd (for_ [64; 64; 32] (body host_without_arial) world_public_dir)))
    as H by (vm_compute; reflexivity).
  exact (proj1 (X9_loop_any_sizes host_without_arial _ _ _ H)).
Defined.

(** A directory where the second icon should go is still a directory
    after the run has failed on it. *)
Lemma X10_directories_kept_witness :
  fs (snd (main host_with_arial world_cluttered)) !! "public/icon-512x512.png" =
  Some Dir.
Proof.
  apply (X10_directories_kept host_with_arial world_cluttered "public/icon-512x512.png").
  vm_compute. reflexivity.
Defined.

(** The run in the cluttered directory: the old 192 icon is replaced,
    then the save of the 512 icon finds a directory. *)
Example run_cluttered :
  let r := main host_with_arial world_cluttered in
  fst r = Raised IsADirectoryError /\
  stdout (snd r) = ["earlier output"; "Created icon-192x192.png"] /\
  fs (snd r) !! "public/icon-192x192.png" = Some (File png_signature).
Proof. cbv zeta. repeat split; by vm_compute. Qed.
